(** * The Hardhat platform of crytic-compile

    A shallow embedding of [crytic_compile/platform/hardhat.py]: the artifact
    locator, the build-info parser, the path configuration and the project
    detection predicate, together with the properties of the specification
    that they decide. *)

From Stdlib Require Import ZArith Ascii String.
From stdpp Require Import gmap strings list fin_maps pretty sorting.

Open Scope string_scope.
Set Warnings "-register-all".

(** ** Python values and exceptions *)

(** A decoded JSON document, as [json.load] hands it over.  An object keeps
    the pairs of the text in order; [dict_get] and [dict_items] below give it
    the meaning of the Python dict built from these pairs. *)
Inductive json : Type :=
  | JNull
  | JBool (b : bool)
  | JNum (lit : string)
  | JStr (s : string)
  | JArr (l : list json)
  | JObj (kv : list (string * json)).

(** The exceptions the platform can raise, by class.  The message of
    [InvalidCompilation] names the build directory found empty; it is kept
    as the segments of that path. *)
Inductive exn : Type :=
  | JSONDecodeError
  | KeyError (k : string)
  | TypeError
  | AttributeError
  | FileNotFoundError
  | InvalidCompilation (empty_dir : list string)
  | DuplicateUnitId (uid : string).

Inductive exn_class : Type :=
  | CJSONDecodeError | CKeyError | CTypeError | CAttributeError
  | CFileNotFoundError | CInvalidCompilation | CDuplicateUnitId.

Definition class_of (e : exn) : exn_class :=
  match e with
  | JSONDecodeError => CJSONDecodeError
  | KeyError _ => CKeyError
  | TypeError => CTypeError
  | AttributeError => CAttributeError
  | FileNotFoundError => CFileNotFoundError
  | InvalidCompilation _ => CInvalidCompilation
  | DuplicateUnitId _ => CDuplicateUnitId
  end.

(** The outcome of a Python expression: a value or a raised exception. *)
Inductive result (A : Type) : Type :=
  | Ok (a : A)
  | Raise (e : exn).
Arguments Ok {A} a.
Arguments Raise {A} e.

#[global] Instance result_ret : MRet result := @Ok.
#[global] Instance result_bind : MBind result := fun A B k r =>
  match r with
  | Ok a => k a
  | Raise e => Raise e
  end.

(** Code that mutates an object and may raise: the state is threaded
    through, and a raised exception leaves the mutations done so far. *)
Definition M (S A : Type) : Type := S -> S * result A.

#[global] Instance M_ret {S} : MRet (M S) := fun A a s => (s, Ok a).
#[global] Instance M_bind {S} : MBind (M S) := fun A B k m s =>
  match m s with
  | (s', Ok a) => k a s'
  | (s', Raise e) => (s', Raise e)
  end.

Definition lift {S A} (r : result A) : M S A := fun s => (s, r).
Definition modify {S} (f : S -> S) : M S unit := fun s => (f s, Ok tt).

(** [for x in l: body(x)] *)
Fixpoint for_each {S A} (body : A -> M S unit) (l : list A) : M S unit :=
  match l with
  | [] => mret tt
  | x :: rest => _ ← body x; for_each body rest
  end.

(** A specification of stateful code: from a state in [P], a normal end
    with value [a] lands in [Q a], and a raised exception lands in [E]. *)
Definition triple {S A} (P : S -> Prop) (m : M S A) (Q : A -> S -> Prop)
    (E : S -> Prop) : Prop :=
  forall s, P s ->
    match m s with
    | (s', Ok a) => Q a s'
    | (s', Raise _) => E s'
    end.

(** ** Strings *)

Module PyStr.

(** [needle in hay] on two [str]. *)
Fixpoint contains (needle hay : string) : bool :=
  String.prefix needle hay
  || match hay with
     | "" => false
     | String _ hay' => contains needle hay'
     end.

(** [s.endswith(suffix)]: one of the tails of [s] is [suffix]. *)
Fixpoint endswith (s suffix : string) : bool :=
  String.eqb s suffix
  || match s with
     | "" => false
     | String _ s' => endswith s' suffix
     end.

(** [s[0:-5]]: all but the last five characters, empty when there are
    fewer than five. *)
Definition drop_last5 (s : string) : string :=
  String.substring 0 (String.length s - 5) s.

(** [s.split(sep)] for a separator of one character. *)
Fixpoint split (sep : ascii) (s : string) : list string :=
  match s with
  | "" => [""]
  | String c s' =>
      if Ascii.eqb c sep then "" :: split sep s'
      else match split sep s' with
           | h :: t => String c h :: t
           | [] => [String c ""]
           end
  end.

(** [sep.join(l)]. *)
Fixpoint join (sep : string) (l : list string) : string :=
  match l with
  | [] => ""
  | x :: rest =>
      match rest with
      | [] => x
      | _ :: _ => x ++ sep ++ join sep rest
      end
  end.

End PyStr.

(** ** Dicts decoded from JSON objects *)

Module PyDict.

(** [d[k]] where [d = dict(kv)]: the last pair with key [k] wins. *)
Fixpoint dict_get (k : string) (kv : list (string * json)) : option json :=
  match kv with
  | [] => None
  | (k', v) :: rest =>
      match dict_get k rest with
      | Some v' => Some v'
      | None => if String.eqb k k' then Some v else None
      end
  end.

Definition dict_has (k : string) (kv : list (string * json)) : bool :=
  existsb (fun p => String.eqb k (fst p)) kv.

(** [d[k] = v] on a dict kept as its ordered items: a key already there
    keeps its place and takes the new value, a new key goes to the end. *)
Fixpoint dict_set (k : string) (v : json) (d : list (string * json))
  : list (string * json) :=
  match d with
  | [] => [(k, v)]
  | (k', v') :: rest =>
      if String.eqb k k' then (k, v) :: rest
      else (k', v') :: dict_set k v rest
  end.

(** [dict(kv).items()]: each key once, at the place of its first pair,
    with the value of its last pair. *)
Definition dict_items (kv : list (string * json)) : list (string * json) :=
  fold_left (fun d p => dict_set (fst p) (snd p) d) kv [].

End PyDict.

(** ** Operations of Python on decoded JSON values *)

Module Py.
Import PyDict.

(** [j[k]] with a [str] key: only a dict can be indexed by a string. *)
Definition getitem (j : json) (k : string) : result json :=
  match j with
  | JObj kv =>
      match dict_get k kv with
      | Some v => Ok v
      | None => Raise (KeyError k)
      end
  | _ => Raise TypeError
  end.

Definition is_str (k : string) (j : json) : bool :=
  match j with
  | JStr s => String.eqb s k
  | _ => false
  end.

(** [k in j]: key membership on a dict, element membership on a list,
    substring test on a [str]; the other values are not containers. *)
Definition contains (k : string) (j : json) : result bool :=
  match j with
  | JObj kv => Ok (dict_has k kv)
  | JArr l => Ok (existsb (is_str k) l)
  | JStr s => Ok (PyStr.contains k s)
  | _ => Raise TypeError
  end.

(** [j.items()] *)
Definition items (j : json) : result (list (string * json)) :=
  match j with
  | JObj kv => Ok (dict_items kv)
  | _ => Raise AttributeError
  end.

(** [j.get(k, dflt)] *)
Definition get (j : json) (k : string) (dflt : json) : result json :=
  match j with
  | JObj kv => Ok (default dflt (dict_get k kv))
  | _ => Raise AttributeError
  end.

(** [j.split(";")] *)
Definition split_semicolon (j : json) : result (list string) :=
  match j with
  | JStr s => Ok (PyStr.split ";" s)
  | _ => Raise AttributeError
  end.

End Py.

(** Keyword arguments: the values the command line hands over. *)
Inductive kwval : Type :=
  | KNone
  | KBool (b : bool)
  | KStr (s : string).

Definition truthy (v : kwval) : bool :=
  match v with
  | KNone => false
  | KBool b => b
  | KStr s => negb (String.eqb s "")
  end.

(** [kwargs.get(k, dflt)] *)
Definition kwargs_get (kwargs : gmap string kwval) (k : string) (dflt : kwval) : kwval :=
  default dflt (kwargs !! k).

(** ** Paths *)

(** A [pathlib.Path], kept as the segments it was built from:
    [Path(a, b, c)] is [Path [a; b; c]], and a segment that is itself a
    [Path] contributes its own segments. *)
Inductive pypath : Type := Path (parts : list string).

Definition parts (p : pypath) : list string :=
  match p with Path l => l end.

Definition joinpath (p : pypath) (seg : string) : pypath :=
  Path (parts p ++ [seg]).

(** A value of the path configuration: a [Path] of the defaults and
    overrides, or whatever JSON value the tool reported. *)
Inductive pathval : Type :=
  | PVPath (p : pypath)
  | PVJson (j : json).

(** The segments a constructor argument of [Path] contributes; anything but
    a [str] or a [Path] is refused. *)
Definition path_arg (v : pathval) : result (list string) :=
  match v with
  | PVPath p => Ok (parts p)
  | PVJson (JStr s) => Ok [s]
  | PVJson _ => Raise TypeError
  end.

Definition path_of_kwval (target_path : pypath) (v : kwval) : result pypath :=
  match v with
  | KStr s => Ok (joinpath target_path s)
  | _ => Raise TypeError
  end.

(** [os.path.join(target, name)] on POSIX, for a relative [name]. *)
Definition os_path_join (target name : string) : string :=
  if String.eqb target "" then name
  else if PyStr.endswith target "/" then target ++ name
  else target ++ "/" ++ name.

(** ** Data model *)

(** Modelled from the spec: the Filename Identity of
    [crytic_compile/utils/naming.py], a four-form descriptor
    (absolute, relative, short, used); equality and hashing for set and
    dict membership use the absolute form. *)
Record Filename : Type := {
  absolute : string;
  used : string;
  relative : string;
  short : string
}.

(** A Python [set] of [Filename] is a map from the form that decides
    equality to the object first added under it. *)
Definition set_add (f : Filename) (s : gmap string Filename) : gmap string Filename :=
  match s !! absolute f with
  | Some _ => s
  | None => <[absolute f := f]> s
  end.

(** [d[f].add(name)] on a [defaultdict(set)] keyed by [Filename]: the
    entry is created empty when no equal key is there. *)
Definition defaultdict_add (f : Filename) (name : string)
    (d : gmap string (Filename * gset string)) : gmap string (Filename * gset string) :=
  match d !! absolute f with
  | Some (f0, names) => <[absolute f := (f0, {[name]} ∪ names)]> d
  | None => <[absolute f := (f, {[name]})]> d
  end.

(** Modelled from the spec: the [CompilerVersion] of
    [crytic_compile/compiler/compiler.py], a triple (family, version,
    optimization enabled) stored as given. *)
Record CompilerVersion : Type := {
  compiler : string;
  version : json;
  optimized : json
}.

(** Modelled from the spec: the [Natspec] of
    [crytic_compile/utils/natspec.py], a (user-doc, dev-doc) pair of opaque
    JSON values. *)
Record Natspec : Type := {
  userdoc : json;
  devdoc : json
}.

(** Modelled from the spec: the Compilation Unit of
    [crytic_compile/compilation_unit.py], with the registries of section 3
    under the names the platform uses for them. *)
Record CompilationUnit : Type := {
  unique_id : string;
  compiler_version : option CompilerVersion;
  contracts_names : gset string;
  filename_to_contracts : gmap string (Filename * gset string);
  abis : gmap string json;
  bytecodes_init : gmap string json;
  bytecodes_runtime : gmap string json;
  srcmaps_init : gmap string (list string);
  srcmaps_runtime : gmap string (list string);
  natspec : gmap string Natspec;
  filenames : gmap string Filename;
  asts : gmap string json
}.

Definition upd_compiler_version (f : option CompilerVersion -> option CompilerVersion) (u : CompilationUnit)
  : CompilationUnit :=
  {| unique_id := unique_id u;
     compiler_version := f (compiler_version u);
     contracts_names := contracts_names u;
     filename_to_contracts := filename_to_contracts u;
     abis := abis u;
     bytecodes_init := bytecodes_init u;
     bytecodes_runtime := bytecodes_runtime u;
     srcmaps_init := srcmaps_init u;
     srcmaps_runtime := srcmaps_runtime u;
     natspec := natspec u;
     filenames := filenames u;
     asts := asts u |}.

Definition upd_contracts_names (f : gset string -> gset string) (u : CompilationUnit)
  : CompilationUnit :=
  {| unique_id := unique_id u;
     compiler_version := compiler_version u;
     contracts_names := f (contracts_names u);
     filename_to_contracts := filename_to_contracts u;
     abis := abis u;
     bytecodes_init := bytecodes_init u;
     bytecodes_runtime := bytecodes_runtime u;
     srcmaps_init := srcmaps_init u;
     srcmaps_runtime := srcmaps_runtime u;
     natspec := natspec u;
     filenames := filenames u;
     asts := asts u |}.

Definition upd_filename_to_contracts (f : gmap string (Filename * gset string) -> gmap string (Filename * gset string)) (u : CompilationUnit)
  : CompilationUnit :=
  {| unique_id := unique_id u;
     compiler_version := compiler_version u;
     contracts_names := contracts_names u;
     filename_to_contracts := f (filename_to_contracts u);
     abis := abis u;
     bytecodes_init := bytecodes_init u;
     bytecodes_runtime := bytecodes_runtime u;
     srcmaps_init := srcmaps_init u;
     srcmaps_runtime := srcmaps_runtime u;
     natspec := natspec u;
     filenames := filenames u;
     asts := asts u |}.

Definition upd_abis (f : gmap string json -> gmap string json) (u : CompilationUnit)
  : CompilationUnit :=
  {| unique_id := unique_id u;
     compiler_version := compiler_version u;
     contracts_names := contracts_names u;
     filename_to_contracts := filename_to_contracts u;
     abis := f (abis u);
     bytecodes_init := bytecodes_init u;
     bytecodes_runtime := bytecodes_runtime u;
     srcmaps_init := srcmaps_init u;
     srcmaps_runtime := srcmaps_runtime u;
     natspec := natspec u;
     filenames := filenames u;
     asts := asts u |}.

Definition upd_bytecodes_init (f : gmap string json -> gmap string json) (u : CompilationUnit)
  : CompilationUnit :=
  {| unique_id := unique_id u;
     compiler_version := compiler_version u;
     contracts_names := contracts_names u;
     filename_to_contracts := filename_to_contracts u;
     abis := abis u;
     bytecodes_init := f (bytecodes_init u);
     bytecodes_runtime := bytecodes_runtime u;
     srcmaps_init := srcmaps_init u;
     srcmaps_runtime := srcmaps_runtime u;
     natspec := natspec u;
     filenames := filenames u;
     asts := asts u |}.

Definition upd_bytecodes_runtime (f : gmap string json -> gmap string json) (u : CompilationUnit)
  : CompilationUnit :=
  {| unique_id := unique_id u;
     compiler_version := compiler_version u;
     contracts_names := contracts_names u;
     filename_to_contracts := filename_to_contracts u;
     abis := abis u;
     bytecodes_init := bytecodes_init u;
     bytecodes_runtime := f (bytecodes_runtime u);
     srcmaps_init := srcmaps_init u;
     srcmaps_runtime := srcmaps_runtime u;
     natspec := natspec u;
     filenames := filenames u;
     asts := asts u |}.

Definition upd_srcmaps_init (f : gmap string (list string) -> gmap string (list string)) (u : CompilationUnit)
  : CompilationUnit :=
  {| unique_id := unique_id u;
     compiler_version := compiler_version u;
     contracts_names := contracts_names u;
     filename_to_contracts := filename_to_contracts u;
     abis := abis u;
     bytecodes_init := bytecodes_init u;
     bytecodes_runtime := bytecodes_runtime u;
     srcmaps_init := f (srcmaps_init u);
     srcmaps_runtime := srcmaps_runtime u;
     natspec := natspec u;
     filenames := filenames u;
     asts := asts u |}.

Definition upd_srcmaps_runtime (f : gmap string (list string) -> gmap string (list string)) (u : CompilationUnit)
  : CompilationUnit :=
  {| unique_id := unique_id u;
     compiler_version := compiler_version u;
     contracts_names := contracts_names u;
     filename_to_contracts := filename_to_contracts u;
     abis := abis u;
     bytecodes_init := bytecodes_init u;
     bytecodes_runtime := bytecodes_runtime u;
     srcmaps_init := srcmaps_init u;
     srcmaps_runtime := f (srcmaps_runtime u);
     natspec := natspec u;
     filenames := filenames u;
     asts := asts u |}.

Definition upd_natspec (f : gmap string Natspec -> gmap string Natspec) (u : CompilationUnit)
  : CompilationUnit :=
  {| unique_id := unique_id u;
     compiler_version := compiler_version u;
     contracts_names := contracts_names u;
     filename_to_contracts := filename_to_contracts u;
     abis := abis u;
     bytecodes_init := bytecodes_init u;
     bytecodes_runtime := bytecodes_runtime u;
     srcmaps_init := srcmaps_init u;
     srcmaps_runtime := srcmaps_runtime u;
     natspec := f (natspec u);
     filenames := filenames u;
     asts := asts u |}.

Definition upd_filenames (f : gmap string Filename -> gmap string Filename) (u : CompilationUnit)
  : CompilationUnit :=
  {| unique_id := unique_id u;
     compiler_version := compiler_version u;
     contracts_names := contracts_names u;
     filename_to_contracts := filename_to_contracts u;
     abis := abis u;
     bytecodes_init := bytecodes_init u;
     bytecodes_runtime := bytecodes_runtime u;
     srcmaps_init := srcmaps_init u;
     srcmaps_runtime := srcmaps_runtime u;
     natspec := natspec u;
     filenames := f (filenames u);
     asts := asts u |}.

Definition upd_asts (f : gmap string json -> gmap string json) (u : CompilationUnit)
  : CompilationUnit :=
  {| unique_id := unique_id u;
     compiler_version := compiler_version u;
     contracts_names := contracts_names u;
     filename_to_contracts := filename_to_contracts u;
     abis := abis u;
     bytecodes_init := bytecodes_init u;
     bytecodes_runtime := bytecodes_runtime u;
     srcmaps_init := srcmaps_init u;
     srcmaps_runtime := srcmaps_runtime u;
     natspec := natspec u;
     filenames := filenames u;
     asts := f (asts u) |}.

(** Modelled from the spec: a Compilation Unit starts with its id and
    empty registries; its compiler version is set by the parse. *)
Definition fresh_unit (uid : string) : CompilationUnit :=
  {| unique_id := uid; compiler_version := None; contracts_names := ∅;
     filename_to_contracts := ∅; abis := ∅; bytecodes_init := ∅;
     bytecodes_runtime := ∅; srcmaps_init := ∅; srcmaps_runtime := ∅;
     natspec := ∅; filenames := ∅; asts := ∅ |}.

(** Modelled from the spec: the Aggregator ([CryticCompile]) owns the
    run-global filename set and the map from unit id to unit. *)
Record CryticCompile : Type := {
  cc_filenames : gmap string Filename;
  compilation_units : gmap string CompilationUnit
}.

(** Modelled from the spec: [CompilationUnit(crytic_compile, uid)] makes a
    fresh unit and registers it with the Aggregator, which "fails with
    DuplicateUnitId if the id already exists". *)
Definition new_unit (uid : string) : M CryticCompile CompilationUnit :=
  fun cc =>
    match compilation_units cc !! uid with
    | Some _ => (cc, Raise (DuplicateUnitId uid))
    | None =>
        ({| cc_filenames := cc_filenames cc;
            compilation_units := <[uid := fresh_unit uid]> (compilation_units cc) |},
         Ok (fresh_unit uid))
    end.

(** What the parse of one artifact mutates: its unit, and the filename set
    of the Aggregator. *)
Record PState : Type := {
  cu : CompilationUnit;
  global_filenames : gmap string Filename
}.

Definition on_unit (f : CompilationUnit -> CompilationUnit) (st : PState) : PState :=
  {| cu := f (cu st); global_filenames := global_filenames st |}.

Definition on_global (f : gmap string Filename -> gmap string Filename) (st : PState)
  : PState :=
  {| cu := cu st; global_filenames := f (global_filenames st) |}.

(** The file system as the platform sees it.  A modification time is the
    number [os.path.getmtime] returns, taken on a scale of integer ticks:
    only its order matters. *)
Record FS : Type := {
  listdir : pypath -> result (list string);
  getmtime : pypath -> Z;
  read_text : pypath -> string;
  isfile : string -> bool
}.

(** ** [sorted(l, key=k)]: a stable sort by key *)

Section Sorted.
Context {A : Type} (key : A -> Z).

(** Puts [x], which came before every element of [l], in front of the
    first element whose key is not smaller. *)
Fixpoint insert_by (x : A) (l : list A) : list A :=
  match l with
  | [] => [x]
  | y :: rest =>
      if (key y <? key x)%Z then y :: insert_by x rest
      else x :: y :: rest
  end.

Definition sorted (l : list A) : list A := foldr insert_by [] l.

(** The order the result is sorted by. *)
Definition key_le (a b : A) : Prop := (key a <= key b)%Z.

End Sorted.

(** ** The invariant of a Compilation Unit *)

(** [name] is in the value-set of the entry of [filename_to_contracts]
    stored under [key]. *)
Definition in_entry (u : CompilationUnit) (name key : string) : Prop :=
  exists f names, filename_to_contracts u !! key = Some (f, names) /\ name ∈ names.

(** [name] is a contract name of the unit and a file declares it. *)
Definition registered (u : CompilationUnit) (name : string) : Prop :=
  name ∈ contracts_names u /\ exists key, in_entry u name key.

(** Every contract with an ABI is registered. *)
Definition names_registered (u : CompilationUnit) : Prop :=
  forall name, is_Some (abis u !! name) -> registered u name.

(** [k] is the absolute form of a member of [filenames]. *)
Definition known_file (u : CompilationUnit) (k : string) : Prop :=
  exists f, filenames u !! k = Some f /\ absolute f = k.

Definition filenames_keyed (u : CompilationUnit) : Prop :=
  forall k f, filenames u !! k = Some f -> absolute f = k.

(** Every key of [asts] is the absolute form of a member of [filenames]. *)
Definition asts_known (u : CompilationUnit) : Prop :=
  forall k, is_Some (asts u !! k) -> known_file u k.

Definition unit_inv (u : CompilationUnit) : Prop :=
  names_registered u /\ filenames_keyed u /\ asts_known u.

(** The contract registries of a unit, all empty. *)
Definition contract_registries_empty (u : CompilationUnit) : Prop :=
  contracts_names u = ∅ /\ filename_to_contracts u = ∅ /\ abis u = ∅
  /\ bytecodes_init u = ∅ /\ bytecodes_runtime u = ∅
  /\ srcmaps_init u = ∅ /\ srcmaps_runtime u = ∅ /\ natspec u = ∅.

(** [u'] is [u] with the sources [entries] recorded, each under the
    identity [sp] gives its path: what was a member stays one, every entry
    has its identity in [filenames] and its AST in [asts], and nothing else
    came in. *)
Definition sources_recorded (sp : string -> Filename) (entries : list (string * json))
    (u u' : CompilationUnit) : Prop :=
  (forall k f, filenames u !! k = Some f -> filenames u' !! k = Some f)
  /\ (forall k, is_Some (asts u !! k) -> is_Some (asts u' !! k))
  /\ (forall e, e ∈ entries ->
        is_Some (filenames u' !! absolute (sp (fst e)))
        /\ is_Some (asts u' !! absolute (sp (fst e))))
  /\ (forall k f, filenames u' !! k = Some f ->
        filenames u !! k = Some f \/ exists e, e ∈ entries /\ f = sp (fst e))
  /\ (forall k, is_Some (asts u' !! k) ->
        is_Some (asts u !! k) \/ exists e, e ∈ entries /\ k = absolute (sp (fst e))).

(** A source entry that carries an AST. *)
Definition has_ast (e : string * json) : Prop :=
  exists ast, Py.getitem (snd e) "ast" = Ok ast.

(** ** Malformed artifacts *)

Definition required_keys : list string := ["output"; "solcVersion"; "input"].

(** What [json.load] made of an artifact is malformed when the text was not
    JSON, or the document lacks a required top-level key. *)
Definition malformed (doc : option json) : bool :=
  match doc with
  | None => true
  | Some (JObj kv) => existsb (fun k => negb (PyDict.dict_has k kv)) required_keys
  | Some _ => true
  end.

(** The exception a malformed artifact ends in. *)
Definition malformed_error (doc : option json) : exn :=
  match doc with
  | None => JSONDecodeError
  | Some (JObj kv) =>
      match List.find (fun k => negb (PyDict.dict_has k kv)) required_keys with
      | Some k => KeyError k
      | None => TypeError
      end
  | Some _ => TypeError
  end.

(** ** Registries of a unit, side by side *)

(** All six per-contract registries have exactly the contract names as
    their keys. *)
Definition aligned (u : CompilationUnit) : Prop :=
  dom (abis u) = contracts_names u
  /\ dom (bytecodes_init u) = contracts_names u
  /\ dom (bytecodes_runtime u) = contracts_names u
  /\ dom (srcmaps_init u) = contracts_names u
  /\ dom (srcmaps_runtime u) = contracts_names u
  /\ dom (natspec u) = contracts_names u.

(** The registries in the order the parse fills them: each has its keys
    among the keys of the one filled before it. *)
Definition chained (u : CompilationUnit) : Prop :=
  dom (abis u) ⊆ contracts_names u
  /\ dom (bytecodes_init u) ⊆ dom (abis u)
  /\ dom (bytecodes_runtime u) ⊆ dom (bytecodes_init u)
  /\ dom (srcmaps_init u) ⊆ dom (bytecodes_runtime u)
  /\ dom (srcmaps_runtime u) ⊆ dom (srcmaps_init u)
  /\ dom (natspec u) ⊆ dom (srcmaps_runtime u).

(** A stored source map: at least one entry, and no entry holds the
    delimiter. *)
Definition srcmap_wf (entries : list string) : Prop :=
  entries <> [] /\ Forall (fun e => PyStr.contains ";" e = false) entries.

Definition srcmaps_wf (u : CompilationUnit) : Prop :=
  forall n entries,
    srcmaps_init u !! n = Some entries \/ srcmaps_runtime u !! n = Some entries ->
    srcmap_wf entries.

(** The run-global filename set still has every member of [G], itself. *)
Definition global_keeps (G : gmap string Filename) (st : PState) : Prop :=
  forall k f, G !! k = Some f -> global_filenames st !! k = Some f.

(** Every file of the unit is in the run-global filename set. *)
Definition unit_files_global (st : PState) : Prop :=
  forall k, is_Some (filenames (cu st) !! k) -> is_Some (global_filenames st !! k).

(** The contract names are exactly the names the entries of
    [filename_to_contracts] hold. *)
Definition names_are_entries (u : CompilationUnit) : Prop :=
  forall n, n ∈ contracts_names u <-> exists key, in_entry u n key.

(** ** A sample environment

    Concrete helpers and a concrete file system, on which the statements
    below are evaluated. *)

Module Sample.

Fixpoint after_last_colon (s : string) : option string :=
  match s with
  | "" => None
  | String c rest =>
      match after_last_colon rest with
      | Some t => Some t
      | None => if Ascii.eqb c ":" then Some rest else None
      end
  end.

(** Modelled from the spec: [extract_name] of
    [crytic_compile/utils/naming.py], "the unqualified contract name from
    the raw (possibly qualified) name": what follows the last colon. *)
Definition extract_name (name : string) : string :=
  default name (after_last_colon name).

(** Modelled from the spec: [convert_filename] of
    [crytic_compile/utils/naming.py], the Path Canonicalizer: a relative
    path is resolved against the working directory, and the path as
    reported is kept as the used form. *)
Definition convert_filename (raw_path : string) (working_dir : pypath) : Filename :=
  {| absolute :=
       if String.prefix "/" raw_path then raw_path
       else PyStr.join "/" (parts working_dir) +:+ "/" +:+ raw_path;
     used := raw_path;
     relative := raw_path;
     short := raw_path |}.

Definition quote : string := String (Ascii.ascii_of_nat 34) "".

(** The text of a JSON object with the two members [artifacts] and
    [cache], as a probe may print it. *)
Definition reported_text : string :=
  "{" +:+ quote +:+ "artifacts" +:+ quote +:+ ":" +:+ quote +:+ "build" +:+ quote
  +:+ "," +:+ quote +:+ "cache" +:+ quote +:+ ":" +:+ quote +:+ "tmp" +:+ quote +:+ "}".

(** [json.loads] on the documents the samples hold; any other text of
    the samples is not JSON. *)
Definition json_loads (text : string) : option json :=
  if String.eqb text "{}" then Some (JObj [])
  else if String.eqb text "[]" then Some (JArr [])
  else if String.eqb text reported_text
  then Some (JObj [("artifacts", JStr "build"); ("cache", JStr "tmp")])
  else None.

(** A probe that reports the two paths above. *)
Definition hardhat_console_reporting (cmd : list string) (cwd stdin : string)
  : string * string :=
  (reported_text, "").

(** A probe that prints nothing, and a compile step that leaves the file
    system as it is. *)
Definition hardhat_console (cmd : list string) (cwd stdin : string) : string * string :=
  ("", "").

Definition hardhat_compile (cmd : list string) (cwd : string) (fs : FS) : FS := fs.

Definition build_dir : pypath := Path ["proj"; "proj"; "artifacts"; "build-info"].

(** A build-info directory with three artifacts and a stray file; the
    artifact named last is the oldest. *)
Definition fs : FS :=
  {| listdir := fun d =>
       if bool_decide (parts d = parts build_dir)
       then Ok ["a.json"; "b.json"; "notes.txt"; "c.json"]
       else Raise FileNotFoundError;
     getmtime := fun p =>
       match last (parts p) with
       | Some "a.json" => 30%Z
       | Some "b.json" => 20%Z
       | Some "c.json" => 10%Z
       | _ => 5%Z
       end;
     read_text := fun p =>
       match last (parts p) with
       | Some "a.json" => "{}"
       | Some "c.json" => "oops"
       | _ => "[]"
       end;
     isfile := fun p => String.eqb p "proj/hardhat.config.ts" |}.

(** A project whose build-info directory holds no artifact. *)
Definition fs_no_artifact : FS :=
  {| listdir := fun d => Ok ["notes.txt"; "cache"];
     getmtime := fun p => 0%Z;
     read_text := fun p => "";
     isfile := fun p => false |}.

Definition info (object_init object_runtime : string) : json :=
  JObj [("abi", JArr []);
        ("evm", JObj [("bytecode",
                       JObj [("object", JStr object_init);
                             ("sourceMap", JStr "1:2:0;3:4:0")]);
                      ("deployedBytecode",
                       JObj [("object", JStr object_runtime);
                             ("sourceMap", JStr "5:6:0")])])].

Definition input (language : string) : json :=
  JObj [("language", JStr language);
        ("settings", JObj [("optimizer", JObj [("enabled", JBool true)])])].

(** The minimal artifact of the specification. *)
Definition minimal : json :=
  JObj [("solcVersion", JStr "0.8.1");
        ("input", input "Solidity");
        ("output",
         JObj [("contracts", JObj [("A.sol", JObj [("Foo", info "60" "61")])])])].

(** One contract name declared in two source files. *)
Definition two_files : json :=
  JObj [("solcVersion", JStr "0.8.1");
        ("input", input "Solidity");
        ("output",
         JObj [("contracts",
                JObj [("A.sol", JObj [("Foo", info "60" "61")]);
                      ("B.sol", JObj [("Foo", info "62" "63")])])])].

(** A document that declares another language with a version string of
    the legacy list. *)
Definition vyper_040 : json :=
  JObj [("solcVersion", JStr "0.4.0");
        ("input", input "Vyper");
        ("output",
         JObj [("sources", JObj [("a.vy", JObj [("ast", JNull)])])])].

(** Sources and no contracts. *)
Definition sources_only : json :=
  JObj [("solcVersion", JStr "0.8.1");
        ("input", input "Solidity");
        ("output",
         JObj [("sources", JObj [("A.sol", JObj [("ast", JNull)]);
                                 ("B.sol", JObj [("ast", JBool true)])])])].

Definition no_sections : json :=
  JObj [("solcVersion", JStr "0.8.1");
        ("input", input "Solidity");
        ("output", JObj [])].

Definition st0 : PState :=
  {| cu := fresh_unit "unit"; global_filenames := ∅ |}.

Definition cc0 : CryticCompile :=
  {| cc_filenames := ∅; compilation_units := ∅ |}.

(** A build-info directory whose entries were all modified at the same
    time, listed in an order that is not the lexical one. *)
Definition fs_ties : FS :=
  {| listdir := fun d => Ok ["b.json"; "x.txt"; "a.json"];
     getmtime := fun p => 7%Z;
     read_text := fun p => "";
     isfile := fun p => false |}.

(** A probe that reports the two paths and warns on its standard error,
    and one that prints a JSON array. *)
Definition hardhat_console_warning (cmd : list string) (cwd stdin : string)
  : string * string :=
  (reported_text, "warning").

Definition hardhat_console_array (cmd : list string) (cwd stdin : string)
  : string * string :=
  ("[]", "").

(** Two sources under a version string of the legacy list. *)
Definition legacy_two_sources : json :=
  JObj [("solcVersion", JStr "0.4.5");
        ("input", input "Solidity");
        ("output",
         JObj [("sources", JObj [("a.sol", JObj [("ast", JNull)]);
                                 ("b.sol", JObj [("ast", JBool true)])])])].

(** The file system after a compile step that wipes the build-info
    directory. *)
Definition wiping_compile (cmd : list string) (cwd : string) (fs : FS) : FS :=
  fs_no_artifact.

End Sample.

(** ** The platform *)

Section Hardhat.

(** The helpers of [crytic_compile.utils.naming], which the platform
    calls and does not define: the unqualified name of a contract, and
    the Path Canonicalizer at a working directory. *)
Variable extract_name : string -> string.
Variable convert_filename : string -> pypath -> Filename.

(** [json.loads]: the decoded document, or [None] where it raises
    [JSONDecodeError]. *)
Variable json_loads : string -> option json.

(** The Toolchain Runner: the console probe gives (stdout, stderr) for a
    command line, a working directory and a standard input; the compile
    step changes the file system. *)
Variable hardhat_console : list string -> string -> string -> string * string.
Variable hardhat_compile : list string -> string -> FS -> FS.

(** *** [is_supported] *)

Definition is_supported (fs : FS) (target : string) (kwargs : gmap string kwval) : bool :=
  let hardhat_ignore := kwargs_get kwargs "hardhat_ignore" (KBool false) in
  if truthy hardhat_ignore then false
  else isfile fs (os_path_join target "hardhat.config.js")
       || isfile fs (os_path_join target "hardhat.config.ts").

(** *** [_run_hardhat_console] and [_get_hardhat_paths] *)

Definition run_hardhat_console (target : string) (base_cmd : list string)
    (command : string) : option string :=
  let '(stdout, stderr) :=
    hardhat_console (base_cmd ++ ["console"; "--no-compile"]) target command in
  if negb (String.eqb stderr "") then None else Some stdout.

Definition default_paths (target : string) : gmap string pathval :=
  let target_path := Path [target] in
  <["tests" := PVPath (joinpath target_path "test")]>
  (<["artifacts" := PVPath (joinpath target_path "artifacts")]>
  (<["cache" := PVPath (joinpath target_path "cache")]>
  (<["sources" := PVPath (joinpath target_path "contracts")]>
  (<["configFile" := PVPath (joinpath target_path "hardhat.config.js")]>
  (<["root" := PVPath target_path]> ∅))))).

(** One [if args.get(arg, None): override_paths[key] = Path(target_path, args[arg])]. *)
Definition add_override (target : string) (args : gmap string kwval)
    (arg key : string) (ov : gmap string pathval) : result (gmap string pathval) :=
  if truthy (kwargs_get args arg KNone) then
    p ← path_of_kwval (Path [target]) (kwargs_get args arg KNone);
    Ok (<[key := PVPath p]> ov)
  else Ok ov.

Definition override_paths (target : string) (args : gmap string kwval)
  : result (gmap string pathval) :=
  ov ← add_override target args "hardhat_cache_directory" "cache" ∅;
  ov ← add_override target args "hardhat_artifacts_directory" "artifacts" ov;
  add_override target args "hardhat_working_dir" "root" ov.

(** The dict a decoded document unpacks to under [**]: only an object is
    a mapping. *)
Definition as_mapping (j : json) : result (gmap string pathval) :=
  match j with
  | JObj kv => Ok (foldl (fun m p => <[fst p := PVJson (snd p)]> m) ∅ kv)
  | _ => Raise TypeError
  end.

(** [{**a, **b}]: the entries of [b] win. *)
Definition merge2 (a b : gmap string pathval) : gmap string pathval := b ∪ a.

Definition get_hardhat_paths (target : string) (base_cmd : list string)
    (args : gmap string kwval) : result (gmap string pathval) :=
  let defaults := default_paths target in
  ov ← override_paths target args;
  let print_paths := "console.log(JSON.stringify(config.paths))" in
  let config_str := run_hardhat_console target base_cmd print_paths in
  let text :=
    match config_str with
    | Some s => if String.eqb s "" then "{}" else s
    | None => "{}"
    end in
  match json_loads text with
  | Some j =>
      paths ← as_mapping j;
      Ok (merge2 (merge2 defaults paths) ov)
  | None => Ok (merge2 defaults ov)
  end.

(** The three layers as the specification words them, "later layers
    winning": an explicit override, else the tool-reported value, else
    the built-in default. *)
Definition layered (defaults reported overrides : gmap string pathval) (k : string)
  : option pathval :=
  match overrides !! k with
  | Some v => Some v
  | None =>
      match reported !! k with
      | Some v => Some v
      | None => defaults !! k
      end
  end.

(** The override an argument stands for: a non-empty string names a path
    under the target, and an absent or falsy argument overrides nothing. *)
Definition override_of (target : string) (args : gmap string kwval) (arg : string)
  : option pathval :=
  match args !! arg with
  | Some (KStr s) =>
      if String.eqb s "" then None else Some (PVPath (Path [target; s]))
  | _ => None
  end.

(** *** The body of [compile]: parsing one build-info document *)

(** [[f"0.4.{x}" for x in range(0, 10)]] *)
Definition legacy_versions : list string :=
  map (fun x : nat => "0.4." +:+ pretty x) (seq 0 10).

(** [compilation_unit.compiler_version.version in legacy_versions] *)
Definition skip_filename (cv : CompilerVersion) : bool :=
  existsb (fun v => Py.is_str v (version cv)) legacy_versions.

(** [compiler = "solc" if input_json["language"] == "Solidity" else "vyper"] *)
Definition compiler_of_language (language : json) : string :=
  if Py.is_str "Solidity" language then "solc" else "vyper".

(** The body of the loop over the contracts of one source file. *)
Definition add_contract (working_dir : pypath) (original_filename : string)
    (original_contract_name : string) (info : json) : M PState unit :=
  let contract_name := extract_name original_contract_name in
  let contract_filename := convert_filename original_filename working_dir in
  _ ← modify (on_unit (upd_contracts_names (fun s => {[contract_name]} ∪ s)));
  _ ← modify (on_unit (upd_filename_to_contracts
                         (defaultdict_add contract_filename contract_name)));
  abi ← lift (Py.getitem info "abi");
  _ ← modify (on_unit (upd_abis <[contract_name := abi]>));
  evm ← lift (Py.getitem info "evm");
  bytecode ← lift (Py.getitem evm "bytecode");
  object ← lift (Py.getitem bytecode "object");
  _ ← modify (on_unit (upd_bytecodes_init <[contract_name := object]>));
  evm ← lift (Py.getitem info "evm");
  deployed ← lift (Py.getitem evm "deployedBytecode");
  object ← lift (Py.getitem deployed "object");
  _ ← modify (on_unit (upd_bytecodes_runtime <[contract_name := object]>));
  evm ← lift (Py.getitem info "evm");
  bytecode ← lift (Py.getitem evm "bytecode");
  source_map ← lift (Py.getitem bytecode "sourceMap");
  entries ← lift (Py.split_semicolon source_map);
  _ ← modify (on_unit (upd_srcmaps_init <[contract_name := entries]>));
  evm ← lift (Py.getitem info "evm");
  deployed ← lift (Py.getitem evm "deployedBytecode");
  source_map ← lift (Py.getitem deployed "sourceMap");
  entries ← lift (Py.split_semicolon source_map);
  _ ← modify (on_unit (upd_srcmaps_runtime <[contract_name := entries]>));
  user ← lift (Py.get info "userdoc" (JObj []));
  dev ← lift (Py.get info "devdoc" (JObj []));
  let doc := {| userdoc := user; devdoc := dev |} in
  modify (on_unit (upd_natspec <[contract_name := doc]>)).

(** [for original_filename, contracts_info in targets_json["contracts"].items()] *)
Definition add_contracts (working_dir : pypath) (targets_json : json) : M PState unit :=
  contracts ← lift (Py.getitem targets_json "contracts");
  files ← lift (Py.items contracts);
  for_each
    (fun entry : string * json =>
       infos ← lift (Py.items (snd entry));
       for_each
         (fun c : string * json => add_contract working_dir (fst entry) (fst c) (snd c))
         infos)
    files.

(** The path a source is recorded under: the target for the legacy
    versions, the reported path otherwise. *)
Definition source_path (target : string) (working_dir : pypath) (skip : bool)
    (path : string) : Filename :=
  if skip then convert_filename target working_dir
  else convert_filename path working_dir.

(** The body of the loop over the sources. *)
Definition add_source (target : string) (working_dir : pypath) (skip : bool)
    (path : string) (info : json) : M PState unit :=
  let path := source_path target working_dir skip path in
  _ ← modify (on_global (set_add path));
  _ ← modify (on_unit (upd_filenames (set_add path)));
  ast ← lift (Py.getitem info "ast");
  modify (on_unit (upd_asts <[absolute path := ast]>)).

Definition add_sources (target : string) (working_dir : pypath) (skip : bool)
    (targets_json : json) : M PState unit :=
  sources ← lift (Py.getitem targets_json "sources");
  files ← lift (Py.items sources);
  for_each (fun entry : string * json =>
              add_source target working_dir skip (fst entry) (snd entry))
           files.

(** The top of the document: its output section and the compiler
    version it declares. *)
Definition read_header (loaded_json : json) : result (json * CompilerVersion) :=
  targets_json ← Py.getitem loaded_json "output";
  version_from_config ← Py.getitem loaded_json "solcVersion";
  input_json ← Py.getitem loaded_json "input";
  language ← Py.getitem input_json "language";
  let compiler := compiler_of_language language in
  settings ← Py.getitem input_json "settings";
  optimizer ← Py.getitem settings "optimizer";
  enabled ← Py.getitem optimizer "enabled";
  Ok (targets_json,
      {| compiler := compiler; version := version_from_config; optimized := enabled |}).

(** The two sections of the output, each walked only when present. *)
Definition parse_output (target : string) (working_dir : pypath)
    (targets_json : json) (skip : bool) : M PState unit :=
  has_contracts ← lift (Py.contains "contracts" targets_json);
  _ ← (if has_contracts : bool then add_contracts working_dir targets_json
       else mret tt);
  has_sources ← lift (Py.contains "sources" targets_json);
  if has_sources : bool then add_sources target working_dir skip targets_json
  else mret tt.

(** Everything [compile] does with the document [json.load] returned. *)
Definition parse_build_info (target : string) (working_dir : pypath)
    (loaded_json : json) : M PState unit :=
  header ← lift (read_header loaded_json);
  let cv := snd header in
  _ ← modify (on_unit (upd_compiler_version (fun _ => Some cv)));
  parse_output target working_dir (fst header) (skip_filename cv).

(** [json.load] of the file, then the parse. *)
Definition load_build_info (fs : FS) (target : string) (working_dir : pypath)
    (build_info : pypath) : M PState unit :=
  match json_loads (read_text fs build_info) with
  | Some loaded_json => parse_build_info target working_dir loaded_json
  | None => lift (Raise JSONDecodeError)
  end.

(** *** The artifact locator and the run *)

(** [sorted(os.listdir(d), key=mtime)] filtered on the extension. *)
Definition locate (fs : FS) (build_directory : pypath) : result (list string) :=
  names ← listdir fs build_directory;
  let files := sorted (fun x => getmtime fs (joinpath build_directory x)) names in
  Ok (filter (fun f => PyStr.endswith f ".json" = true) files).

(** [file if ".json" not in file else file[0:-5]] *)
Definition uniq_id_of (file : string) : string :=
  if negb (PyStr.contains ".json" file) then file else PyStr.drop_last5 file.

(** Runs [body] on a unit that the Aggregator holds under [uid]: the
    unit and the global filename set are mutated in place. *)
Definition in_unit (uid : string) (u : CompilationUnit) (body : M PState unit)
  : M CryticCompile unit :=
  fun cc =>
    let '(st, r) := body {| cu := u; global_filenames := cc_filenames cc |} in
    ({| cc_filenames := global_filenames st;
        compilation_units := <[uid := cu st]> (compilation_units cc) |}, r).

(** One turn of [for file in files]: the unit is made and registered,
    then filled in place, so what an exception leaves half done stays in
    the Aggregator. *)
Definition compile_file (fs : FS) (target : string) (working_dir build_directory : pypath)
    (file : string) : M CryticCompile unit :=
  let build_info := joinpath build_directory file in
  let uniq_id := uniq_id_of file in
  compilation_unit ← new_unit uniq_id;
  in_unit uniq_id compilation_unit
    (load_build_info fs target working_dir build_info).

Definition base_cmd_of (kwargs : gmap string kwval) : list string :=
  if negb (truthy (kwargs_get kwargs "npx_disable" (KBool false)))
  then ["npx"; "hardhat"] else ["hardhat"].

(** The build-info directory and the working directory of the tool. *)
Definition detect_directories (target : string) (kwargs : gmap string kwval)
  : result (pypath * pypath) :=
  detected_paths ← get_hardhat_paths target (base_cmd_of kwargs) kwargs;
  artifacts ← match detected_paths !! "artifacts" with
              | Some v => path_arg v
              | None => Raise (KeyError "artifacts")
              end;
  let build_directory := Path ([target] ++ artifacts ++ ["build-info"]) in
  root ← match detected_paths !! "root" with
         | Some v => path_arg v
         | None => Raise (KeyError "root")
         end;
  let hardhat_working_dir := Path ([target] ++ root) in
  Ok (build_directory, hardhat_working_dir).

(** The file system once the compile step has run, or was skipped. *)
Definition fs_after_compile (fs : FS) (target : string) (kwargs : gmap string kwval)
  : FS :=
  let hardhat_ignore_compile :=
    truthy (kwargs_get kwargs "hardhat_ignore_compile" (KBool false))
    || truthy (kwargs_get kwargs "ignore_compile" (KBool false)) in
  if negb hardhat_ignore_compile
  then hardhat_compile (base_cmd_of kwargs ++ ["compile"; "--force"]) target fs
  else fs.

Definition compile (fs : FS) (target : string) (kwargs : gmap string kwval)
  : M CryticCompile unit :=
  dirs ← lift (detect_directories target kwargs);
  let build_directory := fst dirs in
  let hardhat_working_dir := snd dirs in
  let fs := fs_after_compile fs target kwargs in
  files ← lift (locate fs build_directory);
  match files with
  | [] => lift (Raise (InvalidCompilation (parts build_directory)))
  | _ :: _ =>
      for_each (compile_file fs target hardhat_working_dir build_directory) files
  end.

(** *** [is_dependency] and [_guessed_tests] *)

(** [s.lstrip("/")] *)
Fixpoint lstrip_slash (s : string) : string :=
  match s with
  | "" => ""
  | String c s' => if Ascii.eqb c "/" then lstrip_slash s' else s
  end.

(** [Path(path).parts] on POSIX: the root when the path starts with a
    slash (two leading slashes are kept as they are, any other number is
    one), then the components between slashes that are neither empty nor a
    single dot. *)
Definition path_parts (path : string) : list string :=
  let stripped := lstrip_slash path in
  let slashes := String.length path - String.length stripped in
  let root :=
    match slashes with
    | 0 => []
    | 2 => ["//"]
    | _ => ["/"]
    end in
  root ++ filter (fun x => x <> "" /\ x <> ".") (PyStr.split "/" stripped).

(** ["node_modules" in Path(path).parts] *)
Definition in_node_modules (path : string) : bool :=
  bool_decide ("node_modules" ∈ path_parts path).

(** The state is [self._cached_dependencies]. *)
Definition is_dependency (path : string) : M (gmap string bool) bool :=
  fun cache =>
    match cache !! path with
    | Some ret => (cache, Ok ret)
    | None =>
        let ret := in_node_modules path in
        (<[path := ret]> cache, Ok ret)
    end.

Definition guessed_tests : list string := ["hardhat test"].

(** Every cached answer is the one the path gives. *)
Definition cache_coherent (cache : gmap string bool) : Prop :=
  forall path ret, cache !! path = Some ret -> ret = in_node_modules path.

(** ** Properties *)

Set Default Proof Using "Type".

(** *** Rules for stateful code *)

Lemma triple_bind {S A B} (P : S -> Prop) (m : M S A) (Q : A -> S -> Prop)
    (k : A -> M S B) (R : B -> S -> Prop) (E : S -> Prop) :
  triple P m Q E -> (forall a, triple (Q a) (k a) R E) -> triple P (m ≫= k) R E.
Proof.
  intros Hm Hk s Hs. specialize (Hm s Hs).
  unfold mbind, M_bind. destruct (m s) as [s1 [a|e]]; [|exact Hm].
  apply (Hk a s1 Hm).
Qed.

Lemma triple_lift {S A} (P : S -> Prop) (r : result A) :
  triple P (lift r) (fun _ => P) P.
Proof. intros s Hs. unfold lift. by destruct r. Qed.

Lemma triple_ret {S A} (P : S -> Prop) (a : A) (E : S -> Prop) :
  triple P (mret a) (fun _ => P) E.
Proof. by intros s Hs. Qed.

Lemma triple_modify {S} (P Q E : S -> Prop) (f : S -> S) :
  (forall s, P s -> Q (f s)) -> triple P (modify f) (fun _ => Q) E.
Proof. intros Hf s Hs. by apply Hf. Qed.

Lemma triple_weaken {S A} (P P' : S -> Prop) (m : M S A) (Q Q' : A -> S -> Prop)
    (E E' : S -> Prop) :
  triple P' m Q' E' ->
  (forall s, P s -> P' s) -> (forall a s, Q' a s -> Q a s) -> (forall s, E' s -> E s) ->
  triple P m Q E.
Proof.
  intros Hm HP HQ HE s Hs. specialize (Hm s (HP s Hs)).
  destruct (m s) as [s1 [a|e]]; auto.
Qed.

(** A step that reads without touching the state, inside a sequence. *)
Ltac triple_lift_step :=
  eapply triple_bind; [apply triple_lift|intros ?].

Lemma triple_for_each {S A} (I : S -> Prop) (body : A -> M S unit) (l : list A) :
  (forall x, triple I (body x) (fun _ => I) I) ->
  triple I (for_each body l) (fun _ => I) I.
Proof.
  intros Hbody. induction l as [|x l IH]; simpl.
  - apply triple_ret.
  - eapply triple_bind; [apply Hbody|]. intros ?. exact IH.
Qed.

(** A step that raises stops the loop at once. *)
Lemma for_each_raises {S A} (body : A -> M S unit) (pre post : list A) (x : A) :
  (forall s, exists s' e, body x s = (s', Raise e)) ->
  forall s, exists s' e, for_each body (pre ++ x :: post) s = (s', Raise e).
Proof.
  intros Hx. induction pre as [|y pre IH]; intros s; simpl.
  - destruct (Hx s) as (s' & e & He). exists s', e.
    unfold mbind, M_bind. by rewrite He.
  - unfold mbind, M_bind. destruct (body y s) as [s1 [[]|e]].
    + apply IH.
    + by exists s1, e.
Qed.

(** *** Strings *)

Lemma split_not_nil sep s : PyStr.split sep s <> [].
Proof.
  destruct s as [|c s]; simpl; [done|].
  destruct (Ascii.eqb c sep); [done|].
  by destruct (PyStr.split sep s).
Qed.

Lemma join_cons_char sep c h t :
  PyStr.join sep (String c h :: t) = String c (PyStr.join sep (h :: t)).
Proof. simpl. by destruct t. Qed.

Lemma join_split sep s :
  PyStr.join (String sep "") (PyStr.split sep s) = s.
Proof.
  induction s as [|c s IH]; [done|].
  simpl PyStr.split. destruct (Ascii.eqb c sep) eqn:Hc.
  - apply Ascii.eqb_eq in Hc. subst c.
    destruct (PyStr.split sep s) as [|h t] eqn:Hs; [by apply split_not_nil in Hs|].
    change (PyStr.join (String sep "") ("" :: h :: t))
      with ("" ++ String sep "" ++ PyStr.join (String sep "") (h :: t)).
    by rewrite IH.
  - destruct (PyStr.split sep s) as [|h t] eqn:Hs; [by apply split_not_nil in Hs|].
    by rewrite join_cons_char, IH.
Qed.

(** *** The stable sort *)

Section SortedFacts.
Context {A : Type} (key : A -> Z).

Lemma insert_by_perm x l : insert_by key x l ≡ₚ x :: l.
Proof.
  induction l as [|y l IH]; simpl; [done|].
  destruct (key y <? key x)%Z; [|done].
  rewrite IH. apply Permutation_swap.
Qed.

Lemma sorted_perm l : sorted key l ≡ₚ l.
Proof.
  induction l as [|x l IH]; simpl; [done|].
  fold (sorted key l). by rewrite insert_by_perm, IH.
Qed.

Lemma insert_by_sorted x l :
  StronglySorted (key_le key) l -> StronglySorted (key_le key) (insert_by key x l).
Proof.
  induction 1 as [|y l Hl IH Hy]; simpl.
  - repeat constructor.
  - destruct (key y <? key x)%Z eqn:Hlt.
    + constructor; [exact IH|].
      rewrite insert_by_perm. constructor; [|exact Hy].
      unfold key_le. lia.
    + apply Z.ltb_ge in Hlt.
      constructor; [by constructor|].
      constructor; [exact Hlt|].
      eapply Forall_impl; [exact Hy|]. unfold key_le. simpl. lia.
Qed.

Lemma sorted_sorted l : StronglySorted (key_le key) (sorted key l).
Proof.
  induction l as [|x l IH]; simpl; [constructor|].
  by apply insert_by_sorted.
Qed.

Lemma StronglySorted_filter_dec (P : A -> Prop) `{!forall x, Decision (P x)} l :
  StronglySorted (key_le key) l -> StronglySorted (key_le key) (filter P l).
Proof.
  induction 1 as [|y l Hl IH Hy]; [constructor|].
  rewrite filter_cons. destruct (decide (P y)); [|exact IH].
  constructor; [exact IH|].
  apply Forall_forall. intros z Hz. apply list_elem_of_filter in Hz as [_ Hz].
  by apply (proj1 (Forall_forall _ _) Hy).
Qed.

(** In a sorted list an element of strictly smaller key comes first. *)
Lemma StronglySorted_precedes l i j a b :
  StronglySorted (key_le key) l ->
  l !! i = Some a -> l !! j = Some b -> (key a < key b)%Z -> i < j.
Proof.
  intros Hl. revert i j. induction Hl as [|y l Hl IH Hy]; intros i j Hi Hj Hab.
  - by rewrite lookup_nil in Hi.
  - destruct i as [|i], j as [|j]; simpl in *.
    + simplify_eq. lia.
    + lia.
    + simplify_eq.
      assert (key_le key b a) as Hle.
      { apply (proj1 (Forall_forall _ _) Hy). by eapply list_elem_of_lookup_2. }
      unfold key_le in Hle. lia.
    + specialize (IH i j Hi Hj Hab). lia.
Qed.

End SortedFacts.

(** *** The artifact locator *)

(** C3: the locator returns exactly the entries of the build-info
    directory whose names end with [.json], ordered by modification time
    ascending; of two returned artifacts, the one with the strictly
    smaller modification time comes first, whatever their names. *)
Theorem locate_oldest_first (fs : FS) (build_directory : pypath) (names : list string) :
  listdir fs build_directory = Ok names ->
  let mtime := fun x => getmtime fs (joinpath build_directory x) in
  exists files,
    locate fs build_directory = Ok files
    /\ files ≡ₚ filter (fun f => PyStr.endswith f ".json" = true) names
    /\ (forall f, f ∈ files <-> f ∈ names /\ PyStr.endswith f ".json" = true)
    /\ StronglySorted (fun a b => (mtime a <= mtime b)%Z) files
    /\ (forall i j a b, files !! i = Some a -> files !! j = Some b ->
                         (mtime a < mtime b)%Z -> i < j).
Proof.
  intros Hls mtime. unfold locate. rewrite Hls. simpl.
  eexists. split; [reflexivity|].
  assert (StronglySorted (key_le mtime)
            (filter (fun f => PyStr.endswith f ".json" = true) (sorted mtime names)))
    as Hsorted by apply StronglySorted_filter_dec, sorted_sorted.
  repeat split.
  - by rewrite sorted_perm.
  - apply list_elem_of_filter in H as [_ H]. by rewrite sorted_perm in H.
  - by apply list_elem_of_filter in H as [H _].
  - intros [Hin Hext]. apply list_elem_of_filter. by rewrite sorted_perm.
  - exact Hsorted.
  - intros i j a b. by apply StronglySorted_precedes.
Qed.

(** *** Source maps *)

(** C7: a contract whose two source maps are the strings [s_init] and
    [s_runtime] is stored with the entry sequences [s_init.split(";")]
    and [s_runtime.split(";")], and joining each stored sequence with [;]
    gives the source-map string back. *)
Theorem srcmaps_split_roundtrip (working_dir : pypath) (original_filename name : string)
    (info abi evm bytecode deployed object_init object_runtime : json)
    (s_init s_runtime : string) (st : PState) :
  Py.getitem info "abi" = Ok abi ->
  Py.getitem info "evm" = Ok evm ->
  Py.getitem evm "bytecode" = Ok bytecode ->
  Py.getitem evm "deployedBytecode" = Ok deployed ->
  Py.getitem bytecode "object" = Ok object_init ->
  Py.getitem deployed "object" = Ok object_runtime ->
  Py.getitem bytecode "sourceMap" = Ok (JStr s_init) ->
  Py.getitem deployed "sourceMap" = Ok (JStr s_runtime) ->
  exists st',
    add_contract working_dir original_filename name info st = (st', Ok tt)
    /\ srcmaps_init (cu st') !! extract_name name = Some (PyStr.split ";" s_init)
    /\ srcmaps_runtime (cu st') !! extract_name name = Some (PyStr.split ";" s_runtime)
    /\ PyStr.join ";" (PyStr.split ";" s_init) = s_init
    /\ PyStr.join ";" (PyStr.split ";" s_runtime) = s_runtime.
Proof.
  intros Habi Hevm Hbc Hdep Ho1 Ho2 Hs1 Hs2.
  destruct info as [| | | | |kv]; try discriminate Habi.
  unfold add_contract, mbind, M_bind, lift, modify.
  rewrite Habi, Hevm, Hbc, Hdep, Ho1, Ho2, Hs1, Hs2. simpl.
  eexists. split; [reflexivity|]. simpl.
  rewrite !lookup_insert_eq. repeat split; apply join_split.
Qed.

(** *** Project detection *)

(** C10: [is_supported] is [False] whenever [hardhat_ignore] is truthy,
    whatever the file system holds; otherwise it is [True] exactly when
    [hardhat.config.js] or [hardhat.config.ts] is a file directly in the
    target directory. *)
Theorem is_supported_spec (fs : FS) (target : string) (kwargs : gmap string kwval) :
  let hardhat_ignore := kwargs_get kwargs "hardhat_ignore" (KBool false) in
  (truthy hardhat_ignore = true -> is_supported fs target kwargs = false)
  /\ (truthy hardhat_ignore = false ->
       (is_supported fs target kwargs = true <->
        isfile fs (os_path_join target "hardhat.config.js") = true
        \/ isfile fs (os_path_join target "hardhat.config.ts") = true)).
Proof.
  unfold is_supported. simpl. split; intros ->; [done|].
  by rewrite orb_true_iff.
Qed.

(** *** No artifact *)

(** C4: when the build-info directory lists no name that ends with
    [.json] (it is empty, or holds other files only), the run raises
    [InvalidCompilation] and the Aggregator is left as it was: no
    compilation unit has been made. *)
Theorem compile_no_artifacts (fs : FS) (target : string) (kwargs : gmap string kwval)
    (build_directory working_dir : pypath) (names : list string) (cc : CryticCompile) :
  detect_directories target kwargs = Ok (build_directory, working_dir) ->
  listdir (fs_after_compile fs target kwargs) build_directory = Ok names ->
  Forall (fun f => PyStr.endswith f ".json" = false) names ->
  compile fs target kwargs cc = (cc, Raise (InvalidCompilation (parts build_directory))).
Proof.
  intros Hdirs Hls Hnone.
  unfold compile, mbind, M_bind, lift. rewrite Hdirs. simpl.
  unfold locate. rewrite Hls. simpl.
  destruct (filter _ _) as [|f files] eqn:Hfiles; [done|].
  assert (f ∈ f :: files) as Hf by left.
  rewrite <- Hfiles in Hf. apply list_elem_of_filter in Hf as [Hext Hf].
  rewrite sorted_perm in Hf.
  apply (proj1 (Forall_forall _ _) Hnone) in Hf. congruence.
Qed.

(** *** Path configuration *)

Lemma as_mapping_lookup (kv : list (string * json)) (m0 : gmap string pathval) (k : string) :
  foldl (fun m p => <[fst p := PVJson (snd p)]> m) m0 kv !! k
  = match PyDict.dict_get k kv with
    | Some j => Some (PVJson j)
    | None => m0 !! k
    end.
Proof.
  revert m0. induction kv as [|[k' v] kv IH]; intros m0; simpl; [done|].
  rewrite IH. destruct (PyDict.dict_get k kv); [done|].
  destruct (String.eqb_spec k k') as [->|Hne].
  - by rewrite lookup_insert_eq.
  - by rewrite lookup_insert_ne.
Qed.

Lemma merge2_lookup (a b : gmap string pathval) (k : string) :
  merge2 a b !! k = match b !! k with Some v => Some v | None => a !! k end.
Proof.
  unfold merge2. rewrite lookup_union. by destruct (b !! k), (a !! k).
Qed.

Lemma add_override_lookup (target : string) (args : gmap string kwval)
    (arg key : string) (ov ov' : gmap string pathval) :
  add_override target args arg key ov = Ok ov' ->
  ov' = match override_of target args arg with
        | Some v => <[key := v]> ov
        | None => ov
        end.
Proof.
  unfold add_override, override_of, kwargs_get, mbind, result_bind.
  destruct (args !! arg) as [[|[]|s]|]; simpl; try congruence.
  destruct (String.eqb s ""); simpl; unfold joinpath; simpl; congruence.
Qed.

Lemma override_paths_lookup (target : string) (args : gmap string kwval)
    (ov : gmap string pathval) :
  override_paths target args = Ok ov ->
  ov !! "cache" = override_of target args "hardhat_cache_directory"
  /\ ov !! "artifacts" = override_of target args "hardhat_artifacts_directory"
  /\ ov !! "root" = override_of target args "hardhat_working_dir"
  /\ (forall k, k <> "cache" -> k <> "artifacts" -> k <> "root" -> ov !! k = None).
Proof.
  unfold override_paths, mbind, result_bind.
  destruct (add_override _ _ "hardhat_cache_directory" _ _) as [ov1|] eqn:H1; [|done].
  destruct (add_override _ _ "hardhat_artifacts_directory" _ _) as [ov2|] eqn:H2; [|done].
  intros H3.
  apply add_override_lookup in H1, H2, H3. subst ov ov2 ov1.
  destruct (override_of target args "hardhat_cache_directory"),
           (override_of target args "hardhat_artifacts_directory"),
           (override_of target args "hardhat_working_dir");
    repeat split; intros; by simplify_map_eq.
Qed.

(** C8: the path configuration is the three layers merged with the later
    ones winning: the built-in defaults under the target, then the
    configuration the probe reports, then the explicit overrides; and
    when the probe prints nothing, or something that is not JSON, the
    result is the defaults merged with the overrides, not a failure. *)
Theorem get_hardhat_paths_layers (target : string) (base_cmd : list string)
    (args : gmap string kwval) (ov : gmap string pathval) (config_str : option string) :
  override_paths target args = Ok ov ->
  run_hardhat_console target base_cmd "console.log(JSON.stringify(config.paths))"
    = config_str ->
  let defaults := default_paths target in
  (defaults !! "root" = Some (PVPath (Path [target]))
   /\ defaults !! "configFile" = Some (PVPath (Path [target; "hardhat.config.js"]))
   /\ defaults !! "sources" = Some (PVPath (Path [target; "contracts"]))
   /\ defaults !! "cache" = Some (PVPath (Path [target; "cache"]))
   /\ defaults !! "artifacts" = Some (PVPath (Path [target; "artifacts"]))
   /\ defaults !! "tests" = Some (PVPath (Path [target; "test"])))
  /\ (ov !! "cache" = override_of target args "hardhat_cache_directory"
       /\ ov !! "artifacts" = override_of target args "hardhat_artifacts_directory"
       /\ ov !! "root" = override_of target args "hardhat_working_dir")
  /\ (forall s kv,
         config_str = Some s -> s <> "" -> json_loads s = Some (JObj kv) ->
         exists reported m,
           as_mapping (JObj kv) = Ok reported
           /\ (forall k, reported !! k = PVJson <$> PyDict.dict_get k kv)
           /\ get_hardhat_paths target base_cmd args = Ok m
           /\ forall k, m !! k = layered defaults reported ov k)
  /\ (config_str = None \/ config_str = Some "" ->
       json_loads "{}" = Some (JObj []) ->
       exists m, get_hardhat_paths target base_cmd args = Ok m
                 /\ forall k, m !! k = layered defaults ∅ ov k)
  /\ (forall s,
         config_str = Some s -> s <> "" -> json_loads s = None ->
         exists m, get_hardhat_paths target base_cmd args = Ok m
                   /\ forall k, m !! k = layered defaults ∅ ov k).
Proof.
  intros Hov Hprobe defaults.
  split; [by repeat split|].
  split; [by destruct (override_paths_lookup _ _ _ Hov) as (? & ? & ? & _)|].
  unfold get_hardhat_paths. rewrite Hov. simpl. rewrite Hprobe.
  repeat split.
  - intros s kv -> Hs Hjson.
    apply String.eqb_neq in Hs. rewrite Hs, Hjson. simpl.
    eexists _, _. split; [reflexivity|]. split; [|split; [reflexivity|]].
    + intros k. rewrite as_mapping_lookup, lookup_empty.
      by destruct (PyDict.dict_get k kv).
    + intros k. unfold layered. rewrite !merge2_lookup. by destruct (ov !! k).
  - intros Hnone Hjson.
    assert (match config_str with
            | Some s => if String.eqb s "" then "{}" else s
            | None => "{}"
            end = "{}") as -> by (by destruct Hnone as [-> | ->]).
    rewrite Hjson. simpl. eexists. split; [reflexivity|].
    intros k. unfold layered. rewrite !merge2_lookup, !lookup_empty.
    by destruct (ov !! k).
  - intros s -> Hs Hjson.
    apply String.eqb_neq in Hs. rewrite Hs, Hjson.
    eexists. split; [reflexivity|].
    intros k. unfold layered. rewrite merge2_lookup, lookup_empty.
    by destruct (ov !! k).
Qed.

(** *** The minimal artifact *)

(** C2: parsing the minimal artifact of the specification into a fresh
    unit ends normally with [contracts_names] equal to the set of
    [Foo], [bytecodes_init] mapping [Foo] to [60] and [srcmaps_init]
    mapping [Foo] to the two entries [1:2:0] and [3:4:0]. *)
Theorem parse_minimal_artifact (target : string) (working_dir : pypath)
    (uid : string) (global : gmap string Filename) :
  extract_name "Foo" = "Foo" ->
  exists st',
    parse_build_info target working_dir Sample.minimal
      {| cu := fresh_unit uid; global_filenames := global |} = (st', Ok tt)
    /\ contracts_names (cu st') = {["Foo"]}
    /\ bytecodes_init (cu st') !! "Foo" = Some (JStr "60")
    /\ srcmaps_init (cu st') !! "Foo" = Some ["1:2:0"; "3:4:0"].
Proof.
  intros Hname.
  unfold parse_build_info, parse_output, add_contracts.
  unfold mbind, M_bind, lift, modify. cbn.
  unfold add_contract, mbind, M_bind, lift, modify, mret, M_ret. cbn.
  rewrite Hname.
  eexists. split; [reflexivity|]. cbn.
  split; [apply (right_id_L ∅ (∪))|].
  split; apply lookup_insert_eq.
Qed.

(** *** The invariant of a unit *)

Lemma triple_lift_exn {S A} (P E : S -> Prop) (r : result A) :
  (forall s, P s -> E s) -> triple P (lift r) (fun _ => P) E.
Proof. intros HE s Hs. unfold lift. destruct r; auto. Qed.

Lemma triple_if {S} (P : S -> Prop) (b : bool) (m : M S unit) :
  triple P m (fun _ => P) P ->
  triple P (if b then m else mret tt) (fun _ => P) P.
Proof. intros Hm. destruct b; [exact Hm|apply triple_ret]. Qed.

Lemma set_add_mono (f g : Filename) (s : gmap string Filename) (k : string) :
  s !! k = Some g -> set_add f s !! k = Some g.
Proof.
  intros Hk. unfold set_add. destruct (s !! absolute f) eqn:Hf; [done|].
  rewrite lookup_insert_ne; [done|]. intros <-. congruence.
Qed.

Lemma set_add_inv (f g : Filename) (s : gmap string Filename) (k : string) :
  set_add f s !! k = Some g -> s !! k = Some g \/ (k = absolute f /\ g = f).
Proof.
  unfold set_add. destruct (s !! absolute f) eqn:Hf; [by left|].
  destruct (decide (absolute f = k)) as [<-|Hne].
  - rewrite lookup_insert_eq. intros [= <-]. by right.
  - rewrite lookup_insert_ne by done. by left.
Qed.

Lemma in_entry_add (f : Filename) (name name' key : string) (u : CompilationUnit) :
  in_entry u name' key ->
  in_entry (upd_filename_to_contracts (defaultdict_add f name) u) name' key.
Proof.
  intros (f0 & names & Hkey & Hin). unfold in_entry. simpl. unfold defaultdict_add.
  destruct (decide (absolute f = key)) as [<-|Hne].
  - rewrite Hkey, lookup_insert_eq. eexists _, _. split; [done|].
    apply elem_of_union. by right.
  - destruct (filename_to_contracts u !! absolute f) as [[f1 names1]|];
      rewrite lookup_insert_ne by done; by eexists _, _.
Qed.

Lemma in_entry_self (f : Filename) (name : string) (u : CompilationUnit) :
  in_entry (upd_filename_to_contracts (defaultdict_add f name) u) name (absolute f).
Proof.
  unfold in_entry. simpl. unfold defaultdict_add.
  destruct (filename_to_contracts u !! absolute f) as [[f1 names1]|];
    rewrite lookup_insert_eq; eexists _, _; (split; [done|]).
  - apply elem_of_union. left. by apply elem_of_singleton.
  - by apply elem_of_singleton.
Qed.

Lemma inv_add_name (name : string) (u : CompilationUnit) :
  unit_inv u ->
  unit_inv (upd_contracts_names (fun s => {[name]} ∪ s) u)
  /\ name ∈ contracts_names (upd_contracts_names (fun s => {[name]} ∪ s) u).
Proof.
  intros (Hn & Hk & Ha).
  split; [|simpl; apply elem_of_union; left; by apply elem_of_singleton].
  split; [|by split].
  intros name' Hsome. destruct (Hn name' Hsome) as [Hin Hent].
  split; [|exact Hent]. simpl. apply elem_of_union. by right.
Qed.

Lemma inv_add_entry (f : Filename) (name : string) (u : CompilationUnit) :
  unit_inv u -> name ∈ contracts_names u ->
  unit_inv (upd_filename_to_contracts (defaultdict_add f name) u)
  /\ registered (upd_filename_to_contracts (defaultdict_add f name) u) name.
Proof.
  intros (Hn & Hk & Ha) Hin. split.
  - split; [|by split].
    intros name' Hsome. destruct (Hn name' Hsome) as [Hin' [key Hent]].
    split; [exact Hin'|]. exists key. by apply in_entry_add.
  - split; [exact Hin|]. exists (absolute f). apply in_entry_self.
Qed.

Lemma inv_set_abi (name : string) (abi : json) (u : CompilationUnit) :
  unit_inv u -> registered u name -> unit_inv (upd_abis <[name := abi]> u).
Proof.
  intros (Hn & Hk & Ha) Hreg. split; [|by split].
  intros name'. simpl. destruct (decide (name = name')) as [<-|Hne].
  - intros _. exact Hreg.
  - rewrite lookup_insert_ne by done. apply Hn.
Qed.

Lemma inv_add_filename (f : Filename) (u : CompilationUnit) :
  unit_inv u ->
  unit_inv (upd_filenames (set_add f) u)
  /\ known_file (upd_filenames (set_add f) u) (absolute f).
Proof.
  intros (Hn & Hk & Ha).
  assert (filenames_keyed (upd_filenames (set_add f) u)) as Hk'.
  { intros k g Hg. simpl in Hg. apply set_add_inv in Hg as [Hg|[-> ->]]; [|done].
    by apply Hk. }
  split; [split; [exact Hn|split; [exact Hk'|]]|].
  - intros k Hsome. destruct (Ha k Hsome) as (g & Hg & Habs).
    exists g. split; [|exact Habs]. simpl. by apply set_add_mono.
  - unfold known_file. simpl. unfold set_add.
    destruct (filenames u !! absolute f) as [g|] eqn:Hf.
    + exists g. split; [exact Hf|]. by apply Hk.
    + exists f. by rewrite lookup_insert_eq.
Qed.

Lemma inv_set_ast (k : string) (ast : json) (u : CompilationUnit) :
  unit_inv u -> known_file u k -> unit_inv (upd_asts <[k := ast]> u).
Proof.
  intros (Hn & Hk & Ha) Hknown. split; [exact Hn|]. split; [exact Hk|].
  intros k'. simpl. destruct (decide (k = k')) as [<-|Hne].
  - intros _. exact Hknown.
  - rewrite lookup_insert_ne by done. apply Ha.
Qed.

Lemma add_contract_inv (working_dir : pypath) (original_filename name : string)
    (info : json) :
  triple (fun s => unit_inv (cu s))
         (add_contract working_dir original_filename name info)
         (fun _ s => unit_inv (cu s)) (fun s => unit_inv (cu s)).
Proof.
  set (I := fun s : PState => unit_inv (cu s)).
  set (n := extract_name name).
  set (I' := fun s : PState => unit_inv (cu s) /\ registered (cu s) n).
  unfold add_contract. fold n.
  eapply triple_weaken with (P' := I) (Q' := fun _ => I') (E' := I);
    [|done|by intros ? ? [? ?]|done].
  eapply triple_bind;
    [apply (triple_modify I (fun s => I s /\ n ∈ contracts_names (cu s)) I);
     intros s Hs; by apply inv_add_name|intros ?].
  eapply triple_bind;
    [apply (triple_modify _ I' I); intros s [Hs Hin]; by apply inv_add_entry|intros ?].
  repeat (eapply triple_bind;
    [first [ apply (triple_lift_exn I' I); by intros ? [? ?]
           | apply (triple_modify I' I' I); intros s [Hs Hreg];
             first [ split; [by apply inv_set_abi|exact Hreg]
                   | exact (conj Hs Hreg) ] ]
    |intros ?]).
  apply (triple_modify I' I' I). intros s Hs. exact Hs.
Qed.

Lemma add_source_inv (target : string) (working_dir : pypath) (skip : bool)
    (path : string) (info : json) :
  triple (fun s => unit_inv (cu s))
         (add_source target working_dir skip path info)
         (fun _ s => unit_inv (cu s)) (fun s => unit_inv (cu s)).
Proof.
  set (I := fun s : PState => unit_inv (cu s)).
  set (f := source_path target working_dir skip path).
  set (I' := fun s : PState => unit_inv (cu s) /\ known_file (cu s) (absolute f)).
  unfold add_source. fold f.
  eapply triple_bind;
    [apply (triple_modify I I I); intros s Hs; exact Hs|intros ?].
  eapply triple_bind;
    [apply (triple_modify I I' I); intros s Hs; by apply inv_add_filename|intros ?].
  eapply triple_bind;
    [apply (triple_lift_exn I' I); by intros ? [? ?]|intros ast].
  apply (triple_modify I' I I). intros s [Hs Hknown]. by apply inv_set_ast.
Qed.

Lemma parse_build_info_inv (target : string) (working_dir : pypath) (loaded_json : json) :
  triple (fun s => unit_inv (cu s))
         (parse_build_info target working_dir loaded_json)
         (fun _ s => unit_inv (cu s)) (fun s => unit_inv (cu s)).
Proof.
  set (I := fun s : PState => unit_inv (cu s)).
  unfold parse_build_info, parse_output.
  triple_lift_step.
  eapply triple_bind;
    [apply (triple_modify I I I); intros s Hs; exact Hs|intros ?].
  triple_lift_step.
  eapply triple_bind; [|intros ?].
  { apply triple_if. unfold add_contracts.
    triple_lift_step.
    triple_lift_step.
    apply triple_for_each. intros entry.
    triple_lift_step.
    apply triple_for_each. intros c. apply add_contract_inv. }
  triple_lift_step.
  apply triple_if. unfold add_sources.
  triple_lift_step.
  triple_lift_step.
  apply triple_for_each. intros entry. apply add_source_inv.
Qed.

Lemma fresh_unit_inv (uid : string) : unit_inv (fresh_unit uid).
Proof.
  split; [|split].
  - intros name [x Hx]. simpl in Hx. by rewrite lookup_empty in Hx.
  - intros k f Hf. simpl in Hf. by rewrite lookup_empty in Hf.
  - intros k [x Hx]. simpl in Hx. by rewrite lookup_empty in Hx.
Qed.

(** C5, as the code has it: whatever the document, and whether the parse
    ends normally or raises, a unit that started fresh satisfies: every
    contract name that is a key of [abis] is a member of
    [contracts_names] and is in the value-set of at least one entry of
    [filename_to_contracts]; and every key of [asts] is the absolute
    form of a member of [filenames]. *)
Theorem parse_keeps_unit_invariant (target : string) (working_dir : pypath)
    (loaded_json : json) (uid : string) (global : gmap string Filename) :
  let st' := fst (parse_build_info target working_dir loaded_json
                    {| cu := fresh_unit uid; global_filenames := global |}) in
  (forall name, is_Some (abis (cu st') !! name) ->
     name ∈ contracts_names (cu st')
     /\ exists key f names,
          filename_to_contracts (cu st') !! key = Some (f, names) /\ name ∈ names)
  /\ (forall k, is_Some (asts (cu st') !! k) ->
         exists f, filenames (cu st') !! k = Some f /\ absolute f = k).
Proof.
  intros st'.
  assert (unit_inv (cu st')) as (Hn & _ & Ha).
  { pose proof (parse_build_info_inv target working_dir loaded_json
                  {| cu := fresh_unit uid; global_filenames := global |}
                  (fresh_unit_inv uid)) as H.
    subst st'. destruct (parse_build_info _ _ _ _) as [s1 [[]|e]]; exact H. }
  split.
  - intros name Hsome. destruct (Hn name Hsome) as [Hin [key (f & names & Hent)]].
    split; [exact Hin|]. by exists key, f, names.
  - intros k Hsome. apply (Ha k Hsome).
Qed.

(** *** The two sections of the output *)

Lemma bind_ok_inv {S A B} (m : M S A) (k : A -> M S B) (s s' : S) (b : B) :
  (m ≫= k) s = (s', Ok b) -> exists a s1, m s = (s1, Ok a) /\ k a s1 = (s', Ok b).
Proof.
  unfold mbind, M_bind. destruct (m s) as [s1 [a|e]]; [|done].
  intros Hk. by exists a, s1.
Qed.

Lemma lift_ok_inv {S A} (r : result A) (s s' : S) (a : A) :
  lift r s = (s', Ok a) -> r = Ok a /\ s' = s.
Proof. unfold lift. by intros [= -> ->]. Qed.

Lemma dict_has_true (k : string) (kv : list (string * json)) :
  PyDict.dict_has k kv = true <-> is_Some (PyDict.dict_get k kv).
Proof.
  induction kv as [|[k' v] kv IH]; simpl.
  - split; [done|by intros [x Hx]].
  - fold (PyDict.dict_has k kv). rewrite orb_true_iff, IH.
    destruct (PyDict.dict_get k kv) as [v'|], (String.eqb k k');
      split; intros H;
      first [ by eauto | by left | by right; eauto
            | by destruct H as [H|[x Hx]] | by destruct H as [x Hx] ].
Qed.

Lemma dict_has_false (k : string) (kv : list (string * json)) :
  PyDict.dict_has k kv = false <-> PyDict.dict_get k kv = None.
Proof.
  destruct (PyDict.dict_has k kv) eqn:Hh.
  - apply dict_has_true in Hh as [x Hx]. rewrite Hx. by split.
  - split; [intros _|done].
    destruct (PyDict.dict_get k kv) as [v|] eqn:Hg; [|done].
    assert (PyDict.dict_has k kv = true) as Ht by (apply dict_has_true; eauto).
    congruence.
Qed.

(** The contracts section leaves the files and the ASTs as they are. *)
Lemma add_contracts_files (working_dir : pypath) (targets_json : json)
    (F : gmap string Filename) (T : gmap string json) :
  triple (fun s => filenames (cu s) = F /\ asts (cu s) = T)
         (add_contracts working_dir targets_json)
         (fun _ s => filenames (cu s) = F /\ asts (cu s) = T)
         (fun s => filenames (cu s) = F /\ asts (cu s) = T).
Proof.
  set (I := fun s : PState => filenames (cu s) = F /\ asts (cu s) = T).
  unfold add_contracts.
  triple_lift_step.
  triple_lift_step.
  apply triple_for_each. intros entry.
  triple_lift_step.
  apply triple_for_each. intros c. unfold add_contract.
  repeat (eapply triple_bind;
    [first [ apply triple_lift
           | apply (triple_modify I I I); intros s Hs; exact Hs ]
    |intros ?]).
  apply (triple_modify I I I). intros s Hs. exact Hs.
Qed.

(** One source entry, recorded. *)
Lemma add_source_ok (target : string) (working_dir : pypath) (skip : bool)
    (path : string) (info ast : json) (st : PState) :
  Py.getitem info "ast" = Ok ast ->
  add_source target working_dir skip path info st
  = (let f := source_path target working_dir skip path in
     on_unit (upd_asts <[absolute f := ast]>)
       (on_unit (upd_filenames (set_add f)) (on_global (set_add f) st)), Ok tt).
Proof.
  intros Hast. unfold add_source, mbind, M_bind, lift, modify. by rewrite Hast.
Qed.

Lemma add_source_ok_inv (target : string) (working_dir : pypath) (skip : bool)
    (path : string) (info : json) (st st' : PState) :
  add_source target working_dir skip path info st = (st', Ok tt) ->
  has_ast (path, info).
Proof.
  unfold add_source, mbind, M_bind, lift, modify, has_ast. simpl.
  destruct (Py.getitem info "ast") as [ast|]; [by exists ast|done].
Qed.

Lemma set_add_self (f : Filename) (s : gmap string Filename) :
  is_Some (set_add f s !! absolute f).
Proof.
  unfold set_add. destruct (s !! absolute f) as [g|] eqn:Hf.
  - by rewrite Hf.
  - by rewrite lookup_insert_eq.
Qed.

Lemma sources_recorded_nil (sp : string -> Filename) (u : CompilationUnit) :
  sources_recorded sp [] u u.
Proof.
  repeat split; auto.
  - by apply elem_of_nil in H.
  - by apply elem_of_nil in H.
Qed.

Lemma sources_recorded_cons (sp : string -> Filename) (e : string * json) (ast : json)
    (entries : list (string * json)) (u u' : CompilationUnit) :
  sources_recorded sp entries
    (upd_asts <[absolute (sp (fst e)) := ast]> (upd_filenames (set_add (sp (fst e))) u)) u' ->
  sources_recorded sp (e :: entries) u u'.
Proof.
  intros (Hf & Ha & Hin & Hfinv & Hainv). simpl in *.
  split; [|split; [|split; [|split]]].
  - intros k g Hg. apply Hf. by apply set_add_mono.
  - intros k Hk. apply Ha.
    destruct (decide (absolute (sp (fst e)) = k)) as [<-|Hne].
    + rewrite lookup_insert_eq. eauto.
    + by rewrite lookup_insert_ne.
  - intros e' He'. apply elem_of_cons in He' as [->|He']; [|by apply Hin].
    split.
    + destruct (set_add_self (sp (fst e)) (filenames u)) as [g Hg]. eauto.
    + apply Ha. rewrite lookup_insert_eq. eauto.
  - intros k g Hg. destruct (Hfinv k g Hg) as [Hg1|(e' & He' & ->)].
    + apply set_add_inv in Hg1 as [Hg1|[-> ->]]; [by left|].
      right. exists e. split; [left|done].
    + right. exists e'. split; [by right|done].
  - intros k Hk. destruct (Hainv k Hk) as [Hk1|(e' & He' & ->)].
    + destruct (decide (absolute (sp (fst e)) = k)) as [<-|Hne].
      * right. exists e. split; [left|done].
      * left. by rewrite lookup_insert_ne in Hk1.
    + right. exists e'. split; [by right|done].
Qed.

Lemma add_sources_loop (target : string) (working_dir : pypath) (skip : bool)
    (entries : list (string * json)) (st st' : PState) :
  for_each (fun e : string * json => add_source target working_dir skip (fst e) (snd e))
    entries st = (st', Ok tt) ->
  sources_recorded (source_path target working_dir skip) entries (cu st) (cu st')
  /\ (contract_registries_empty (cu st) -> contract_registries_empty (cu st')).
Proof.
  revert st. induction entries as [|e entries IH]; intros st Hrun; simpl in Hrun.
  - injection Hrun as ->. split; [apply sources_recorded_nil|done].
  - apply bind_ok_inv in Hrun as ([] & s1 & Hstep & Hrest).
    destruct (add_source_ok_inv _ _ _ _ _ _ _ Hstep) as [ast Hast]. simpl in Hast.
    rewrite (add_source_ok _ _ _ _ _ ast _ Hast) in Hstep.
    injection Hstep as <-. apply IH in Hrest as [Hrec Hempty].
    split; [|exact Hempty].
    apply (sources_recorded_cons _ e ast). exact Hrec.
Qed.

Lemma add_sources_loop_ok (target : string) (working_dir : pypath) (skip : bool)
    (entries : list (string * json)) (st : PState) :
  Forall has_ast entries ->
  exists st',
    for_each (fun e : string * json => add_source target working_dir skip (fst e) (snd e))
      entries st = (st', Ok tt).
Proof.
  intros Hall. revert st. induction Hall as [|e entries [ast Hast] _ IH]; intros st.
  - by exists st.
  - simpl. unfold mbind at 1, M_bind.
    rewrite (add_source_ok _ _ _ _ _ ast _ Hast). apply IH.
Qed.

Lemma fresh_unit_registries_empty (uid : string) :
  contract_registries_empty (fresh_unit uid).
Proof. by repeat split. Qed.

(** C6: a document whose header is in order needs neither section.
    With sources and no contracts, and every source carrying its AST, the
    parse ends normally, every source has its identity in [filenames] and
    its AST in [asts], and the contract registries are empty.  With
    neither section the parse ends normally and every registry is empty.
    With no sources the outcome is that of the contracts section alone. *)
Theorem sections_are_optional (target : string) (working_dir : pypath)
    (loaded_json : json) (out : list (string * json)) (cv : CompilerVersion)
    (uid : string) (global : gmap string Filename) :
  read_header loaded_json = Ok (JObj out, cv) ->
  let st0 := {| cu := fresh_unit uid; global_filenames := global |} in
  let sp := source_path target working_dir (skip_filename cv) in
  (PyDict.dict_has "contracts" out = false ->
   forall sources entries,
     PyDict.dict_get "sources" out = Some sources ->
     Py.items sources = Ok entries ->
     Forall has_ast entries ->
     exists st',
       parse_build_info target working_dir loaded_json st0 = (st', Ok tt)
       /\ contract_registries_empty (cu st')
       /\ forall e, e ∈ entries ->
            is_Some (filenames (cu st') !! absolute (sp (fst e)))
            /\ is_Some (asts (cu st') !! absolute (sp (fst e))))
  /\ (PyDict.dict_has "contracts" out = false ->
       PyDict.dict_has "sources" out = false ->
       exists st',
         parse_build_info target working_dir loaded_json st0 = (st', Ok tt)
         /\ contract_registries_empty (cu st')
         /\ filenames (cu st') = ∅ /\ asts (cu st') = ∅
         /\ global_filenames st' = global)
  /\ (PyDict.dict_has "sources" out = false ->
       forall skip st,
         parse_output target working_dir (JObj out) skip st
         = if PyDict.dict_has "contracts" out
           then add_contracts working_dir (JObj out) st
           else (st, Ok tt)).
Proof.
  intros Hheader st0 sp. split; [|split].
  - intros Hnc sources entries Hsrc Hitems Hasts.
    assert (PyDict.dict_has "sources" out = true) as Hs
      by (apply dict_has_true; eauto).
    unfold parse_build_info, parse_output, add_sources, mbind, M_bind, lift, modify.
    rewrite Hheader. simpl. rewrite Hnc, Hs. simpl. rewrite Hsrc, Hitems.
    match goal with
    | |- context [for_each ?body entries ?st] =>
        destruct (add_sources_loop_ok target working_dir (skip_filename cv)
                    entries st Hasts) as [st' Hrun]
    end.
    exists st'. rewrite Hrun. split; [done|].
    apply add_sources_loop in Hrun as [(_ & _ & Hin & _) Hempty].
    split; [apply Hempty, fresh_unit_registries_empty|exact Hin].
  - intros Hnc Hns.
    unfold parse_build_info, parse_output, mbind, M_bind, lift, modify.
    rewrite Hheader. simpl. rewrite Hnc, Hns. simpl.
    eexists. split; [reflexivity|]. by repeat split.
  - intros Hns skip st.
    unfold parse_output, mbind, M_bind, lift. simpl. rewrite Hns.
    destruct (PyDict.dict_has "contracts" out); [|done].
    by destruct (add_contracts working_dir (JObj out) st) as [s1 [[]|e]].
Qed.

(** *** The legacy path substitution *)

Lemma legacy_versions_eq :
  legacy_versions
  = ["0.4.0"; "0.4.1"; "0.4.2"; "0.4.3"; "0.4.4";
     "0.4.5"; "0.4.6"; "0.4.7"; "0.4.8"; "0.4.9"].
Proof. reflexivity. Qed.

Lemma is_str_true (k : string) (j : json) : Py.is_str k j = true <-> j = JStr k.
Proof.
  destruct j; simpl; try (split; [done|discriminate]).
  rewrite String.eqb_eq. split; [by intros ->|by intros [= ->]].
Qed.

Lemma skip_filename_iff (cv : CompilerVersion) :
  skip_filename cv = true <-> exists s, version cv = JStr s /\ s ∈ legacy_versions.
Proof.
  unfold skip_filename. rewrite existsb_exists. split.
  - intros (s & Hin & Hs). exists s. split; [by apply is_str_true|].
    by apply list_elem_of_In.
  - intros (s & Hv & Hin). exists s. split; [by apply list_elem_of_In|].
    by apply is_str_true.
Qed.

(** What a successful parse of a document with a sources section did to
    the files of a fresh unit. *)
Lemma parse_sources_recorded (target : string) (working_dir : pypath)
    (loaded_json targets_json sources : json) (cv : CompilerVersion)
    (entries : list (string * json)) (uid : string) (global : gmap string Filename)
    (st' : PState) :
  read_header loaded_json = Ok (targets_json, cv) ->
  Py.getitem targets_json "sources" = Ok sources ->
  Py.items sources = Ok entries ->
  parse_build_info target working_dir loaded_json
    {| cu := fresh_unit uid; global_filenames := global |} = (st', Ok tt) ->
  exists u, filenames u = ∅ /\ asts u = ∅
    /\ sources_recorded (source_path target working_dir (skip_filename cv))
          entries u (cu st').
Proof.
  intros Hheader Hsrc Hitems Hrun.
  unfold parse_build_info in Hrun.
  apply bind_ok_inv in Hrun as (header & s0 & Hh & Hrun).
  apply lift_ok_inv in Hh as [Hh ->]. rewrite Hheader in Hh. injection Hh as <-.
  apply bind_ok_inv in Hrun as ([] & s1 & Hmod & Hrun).
  injection Hmod as <-. simpl in Hrun. unfold parse_output in Hrun.
  apply bind_ok_inv in Hrun as (has_contracts & s2 & Hc & Hrun).
  apply lift_ok_inv in Hc as [Hc ->].
  apply bind_ok_inv in Hrun as ([] & s3 & Hcontracts & Hrun).
  apply bind_ok_inv in Hrun as (has_sources & s4 & Hs & Hrun).
  apply lift_ok_inv in Hs as [Hs ->].
  assert (filenames (cu s3) = ∅ /\ asts (cu s3) = ∅) as [Hf3 Ha3].
  { destruct has_contracts.
    - pose proof (add_contracts_files working_dir targets_json ∅ ∅
                    (on_unit (upd_compiler_version (fun _ => Some cv))
                       {| cu := fresh_unit uid; global_filenames := global |})
                    (conj eq_refl eq_refl)) as H.
      by rewrite Hcontracts in H.
    - by injection Hcontracts as <-. }
  assert (has_sources = true) as ->.
  { destruct targets_json as [| | | | |out]; try discriminate Hsrc.
    simpl in Hsrc, Hs. injection Hs as <-.
    apply dict_has_true. by destruct (PyDict.dict_get "sources" out). }
  unfold add_sources in Hrun.
  apply bind_ok_inv in Hrun as (sources' & s5 & Hg & Hrun).
  apply lift_ok_inv in Hg as [Hg ->]. rewrite Hsrc in Hg. injection Hg as <-.
  apply bind_ok_inv in Hrun as (entries' & s6 & Hi & Hrun).
  apply lift_ok_inv in Hi as [Hi ->]. rewrite Hitems in Hi. injection Hi as <-.
  apply add_sources_loop in Hrun as [Hrec _].
  by exists (cu s3).
Qed.

(** C1, as the code has it: the substitution is applied exactly when the
    version string is one of [0.4.0] to [0.4.9], whatever the compiler
    family.  Then every source of a parsed document is recorded as the
    canonicalized target path; for any other version string every source
    is recorded as its own reported path, canonicalized. *)
Theorem legacy_substitution_by_version (target : string) (working_dir : pypath)
    (loaded_json targets_json sources : json) (cv : CompilerVersion)
    (entries : list (string * json)) (uid : string) (global : gmap string Filename)
    (st' : PState) :
  read_header loaded_json = Ok (targets_json, cv) ->
  Py.getitem targets_json "sources" = Ok sources ->
  Py.items sources = Ok entries ->
  parse_build_info target working_dir loaded_json
    {| cu := fresh_unit uid; global_filenames := global |} = (st', Ok tt) ->
  (skip_filename cv = true <->
   exists s, version cv = JStr s
             /\ s ∈ ["0.4.0"; "0.4.1"; "0.4.2"; "0.4.3"; "0.4.4";
                      "0.4.5"; "0.4.6"; "0.4.7"; "0.4.8"; "0.4.9"])
  /\ (forall family,
        skip_filename {| compiler := family; version := version cv;
                         optimized := optimized cv |} = skip_filename cv)
  /\ (skip_filename cv = true ->
       (forall e, e ∈ entries ->
          is_Some (filenames (cu st') !! absolute (convert_filename target working_dir)))
       /\ forall k f, filenames (cu st') !! k = Some f ->
             f = convert_filename target working_dir)
  /\ (skip_filename cv = false ->
       (forall e, e ∈ entries ->
          is_Some (filenames (cu st') !! absolute (convert_filename (fst e) working_dir)))
       /\ forall k f, filenames (cu st') !! k = Some f ->
             exists e, e ∈ entries /\ f = convert_filename (fst e) working_dir).
Proof.
  intros Hheader Hsrc Hitems Hrun.
  destruct (parse_sources_recorded _ _ _ _ _ _ _ _ _ _ Hheader Hsrc Hitems Hrun)
    as (u & Hu & _ & (_ & _ & Hin & Hinv & _)).
  split; [by rewrite <- legacy_versions_eq; apply skip_filename_iff|].
  split; [done|].
  split; intros Hskip; rewrite Hskip in Hin, Hinv; simpl in Hin, Hinv.
  - split; [intros e He; by apply (Hin e He)|].
    intros k f Hf. destruct (Hinv k f Hf) as [Hold|(e & _ & ->)]; [|done].
    by rewrite Hu, lookup_empty in Hold.
  - split; [intros e He; by apply (Hin e He)|].
    intros k f Hf. destruct (Hinv k f Hf) as [Hold|(e & He & ->)]; [|by exists e].
    by rewrite Hu, lookup_empty in Hold.
Qed.

(** *** Malformed artifacts *)

Lemma load_malformed (fs : FS) (target : string) (working_dir build_info : pypath)
    (st : PState) :
  malformed (json_loads (read_text fs build_info)) = true ->
  load_build_info fs target working_dir build_info st
  = (st, Raise (malformed_error (json_loads (read_text fs build_info)))).
Proof.
  unfold load_build_info.
  destruct (json_loads (read_text fs build_info)) as [[| | | | |kv]|]; try done.
  unfold malformed, malformed_error. simpl. intros Hbad.
  unfold parse_build_info, read_header, mbind, M_bind, lift. simpl.
  destruct (PyDict.dict_has "output" kv) eqn:H1;
    [apply dict_has_true in H1 as [v1 H1]|apply dict_has_false in H1];
    rewrite H1; simpl; [|done].
  destruct (PyDict.dict_has "solcVersion" kv) eqn:H2;
    [apply dict_has_true in H2 as [v2 H2]|apply dict_has_false in H2];
    rewrite H2; simpl; [|done].
  destruct (PyDict.dict_has "input" kv) eqn:H3;
    [apply dict_has_true in H3 as [v3 H3]|apply dict_has_false in H3];
    rewrite H3; simpl; [|done].
  discriminate Hbad.
Qed.

Lemma compile_file_malformed (fs : FS) (target : string)
    (working_dir build_directory : pypath) (file : string) (cc : CryticCompile) :
  malformed (json_loads (read_text fs (joinpath build_directory file))) = true ->
  exists cc' e,
    compile_file fs target working_dir build_directory file cc = (cc', Raise e).
Proof.
  intros Hbad. unfold compile_file, mbind, M_bind, new_unit, in_unit.
  destruct (compilation_units cc !! uniq_id_of file); [by eexists _, _|].
  rewrite (load_malformed _ _ _ _ _ Hbad). by eexists _, _.
Qed.

(** C9, as the code has it: an artifact that is not valid JSON ends the
    parse in [JSONDecodeError], and a decoded object that lacks one of
    [output], [solcVersion], [input] ends it in the [KeyError] of the
    first of them that is missing (a document that is not an object, in
    [TypeError]); the unit is left untouched, and the run ends in a raised
    exception. *)
Theorem malformed_artifact_aborts (fs0 : FS) (target : string)
    (kwargs : gmap string kwval) (build_directory working_dir : pypath)
    (files : list string) (file : string) (cc : CryticCompile) :
  let fs := fs_after_compile fs0 target kwargs in
  let doc := json_loads (read_text fs (joinpath build_directory file)) in
  detect_directories target kwargs = Ok (build_directory, working_dir) ->
  locate fs build_directory = Ok files ->
  file ∈ files ->
  malformed doc = true ->
  (forall st,
     load_build_info fs target working_dir (joinpath build_directory file) st
     = (st, Raise (malformed_error doc)))
  /\ (doc = None -> malformed_error doc = JSONDecodeError)
  /\ (forall kv, doc = Some (JObj kv) ->
        exists k, k ∈ required_keys /\ PyDict.dict_has k kv = false
                  /\ malformed_error doc = KeyError k)
  /\ exists cc' e, compile fs0 target kwargs cc = (cc', Raise e).
Proof.
  intros fs doc Hdirs Hfiles Hin Hbad.
  split; [intros st; by apply load_malformed|].
  split; [by intros ->|].
  split.
  - intros kv Hdoc. rewrite Hdoc in Hbad |- *.
    unfold malformed in Hbad. unfold malformed_error.
    destruct (List.find _ required_keys) as [k|] eqn:Hfind.
    + apply find_some in Hfind as [Hk Hmiss]. exists k.
      split; [by apply list_elem_of_In|]. split; [|done].
      by apply negb_true_iff.
    + apply existsb_exists in Hbad as (k & Hk & Hmiss).
      eapply find_none in Hfind; [|exact Hk]. congruence.
  - unfold compile, mbind, M_bind, lift. rewrite Hdirs. simpl.
    fold fs. rewrite Hfiles.
    apply list_elem_of_split in Hin as (pre & post & ->).
    assert (forall s, exists s' e,
              compile_file fs target working_dir build_directory file s
              = (s', Raise e)) as Hfile
      by (intros s; by apply compile_file_malformed).
    destruct (for_each_raises _ pre post file Hfile cc) as (cc' & e & Hrun).
    exists cc', e. by destruct pre.
Qed.

(** ** Further properties of the platform *)

(** *** Dependencies *)

Lemma split_sep_cons (sep : ascii) (s : string) :
  PyStr.split sep (String sep s) = "" :: PyStr.split sep s.
Proof. simpl. by rewrite Ascii.eqb_refl. Qed.

Lemma node_modules_lstrip (path : string) :
  "node_modules" ∈ PyStr.split "/" path
  <-> "node_modules" ∈ PyStr.split "/" (lstrip_slash path).
Proof.
  induction path as [|c path IH]; [done|].
  cbn [lstrip_slash]. destruct (Ascii.eqb c "/") eqn:Hc; [|done].
  apply Ascii.eqb_eq in Hc. subst c.
  rewrite split_sep_cons, elem_of_cons, <- IH.
  split; [by intros [?|?]|by right].
Qed.

Lemma in_node_modules_iff (path : string) :
  in_node_modules path = true <-> "node_modules" ∈ PyStr.split "/" path.
Proof.
  unfold in_node_modules, path_parts.
  rewrite bool_decide_eq_true, elem_of_app, list_elem_of_filter, <- node_modules_lstrip.
  split.
  - intros [Hroot|[_ Hin]]; [|done].
    destruct (String.length path - String.length (lstrip_slash path)) as [|[|[|n]]];
      [by apply elem_of_nil in Hroot|
       apply list_elem_of_singleton in Hroot; discriminate Hroot ..].
  - intros Hin. right. by split.
Qed.

(** X1: asked about a path it has not cached, [is_dependency] answers
    [True] exactly when one of the components of the path between slashes
    is [node_modules] itself, and caches that answer under the path. *)
Theorem is_dependency_by_component (path : string) (cache : gmap string bool) :
  cache !! path = None ->
  exists ret,
    is_dependency path cache = (<[path := ret]> cache, Ok ret)
    /\ (ret = true <-> "node_modules" ∈ PyStr.split "/" path).
Proof.
  intros Hnone. exists (in_node_modules path). unfold is_dependency. rewrite Hnone.
  split; [done|apply in_node_modules_iff].
Qed.

(** X2: on a cache whose answers are right, [is_dependency] gives the right
    answer, keeps everything cached and the cache right, has the path
    cached afterwards, and asked again gives the same answer and leaves
    the cache as it is. *)
Theorem is_dependency_memoizes (path : string) (cache : gmap string bool) :
  cache_coherent cache ->
  exists cache',
    is_dependency path cache = (cache', Ok (in_node_modules path))
    /\ cache_coherent cache'
    /\ cache ⊆ cache'
    /\ cache' !! path = Some (in_node_modules path)
    /\ is_dependency path cache' = (cache', Ok (in_node_modules path)).
Proof.
  intros Hcoh. unfold is_dependency.
  destruct (cache !! path) as [ret|] eqn:Hpath.
  - rewrite (Hcoh _ _ Hpath) in Hpath |- *. exists cache.
    by rewrite Hpath.
  - exists (<[path := in_node_modules path]> cache).
    rewrite lookup_insert_eq. repeat split; try done.
    + intros p ret Hp. destruct (decide (path = p)) as [<-|Hne].
      * rewrite lookup_insert_eq in Hp. congruence.
      * rewrite lookup_insert_ne in Hp by done. by apply Hcoh.
    + by apply insert_subseteq.
Qed.

(** *** Unit ids *)

Lemma endswith_unfold (s suffix : string) :
  PyStr.endswith s suffix
  = String.eqb s suffix
    || match s with
       | "" => false
       | String _ s' => PyStr.endswith s' suffix
       end.
Proof. by destruct s. Qed.

Lemma endswith_iff (s suffix : string) :
  PyStr.endswith s suffix = true <-> exists p, s = p +:+ suffix.
Proof.
  split.
  - induction s as [|c s IH]; rewrite endswith_unfold, orb_true_iff.
    + intros [H|H]; [|done]. apply String.eqb_eq in H. by exists "".
    + intros [H|H].
      * apply String.eqb_eq in H. by exists "".
      * destruct (IH H) as [p ->]. by exists (String c p).
  - intros [p ->]. induction p as [|c p IH].
    + change ("" +:+ suffix) with suffix.
      by rewrite endswith_unfold, String.eqb_refl.
    + change (PyStr.endswith (String c p +:+ suffix) suffix)
        with (String.eqb (String c (p +:+ suffix)) suffix
              || PyStr.endswith (p +:+ suffix) suffix).
      rewrite IH. apply orb_true_r.
Qed.

Lemma prefix_refl (s : string) : String.prefix s s = true.
Proof.
  induction s as [|c s IH]; [done|]. simpl. by destruct (ascii_dec c c).
Qed.

Lemma contains_app_r (needle p : string) : PyStr.contains needle (p +:+ needle) = true.
Proof.
  induction p as [|c p IH]; simpl.
  - destruct needle; simpl; [done|]. rewrite prefix_refl.
    by destruct (ascii_dec _ _).
  - rewrite IH. apply orb_true_r.
Qed.

Lemma length_app_str (p t : string) :
  String.length (p +:+ t) = String.length p + String.length t.
Proof. induction p as [|c p IH]; simpl; [done|]. by rewrite IH. Qed.

Lemma substring_app_l (p t : string) :
  String.substring 0 (String.length p) (p +:+ t) = p.
Proof.
  induction p as [|c p IH]; simpl; [by destruct t|]. by rewrite IH.
Qed.

Lemma uniq_id_of_json (p : string) : uniq_id_of (p +:+ ".json") = p.
Proof.
  unfold uniq_id_of, PyStr.drop_last5. rewrite contains_app_r. simpl negb. cbv iota.
  rewrite length_app_str.
  replace (String.length p + String.length ".json" - 5) with (String.length p)
    by (simpl; lia).
  apply substring_app_l.
Qed.

(** X3: the unit id of a located artifact is its name without the
    extension: putting [.json] back gives the file name, so two different
    artifacts of one directory never share a unit id. *)
Theorem located_unit_ids (fs : FS) (build_directory : pypath) (files : list string) :
  locate fs build_directory = Ok files ->
  (forall f, f ∈ files -> uniq_id_of f +:+ ".json" = f)
  /\ (forall f g, f ∈ files -> g ∈ files -> uniq_id_of f = uniq_id_of g -> f = g).
Proof.
  intros Hloc. unfold locate in Hloc.
  destruct (listdir fs build_directory) as [names|]; [|done].
  simpl in Hloc. injection Hloc as <-.
  assert (forall f, f ∈ filter (fun f => PyStr.endswith f ".json" = true)
                        (sorted (fun x => getmtime fs (joinpath build_directory x)) names) ->
                    uniq_id_of f +:+ ".json" = f) as Hid.
  { intros f Hf. apply list_elem_of_filter in Hf as [Hext _].
    apply endswith_iff in Hext as [p ->]. by rewrite uniq_id_of_json. }
  split; [exact Hid|].
  intros f g Hf Hg Heq. rewrite <- (Hid f Hf), <- (Hid g Hg). by rewrite Heq.
Qed.

(** *** Order of the located artifacts *)

Section SortedMore.
Context {A : Type} (key : A -> Z).

Lemma filter_key_insert_by (k : Z) (x : A) (l : list A) :
  filter (fun y => key y = k) (insert_by key x l)
  = if decide (key x = k) then x :: filter (fun y => key y = k) l
    else filter (fun y => key y = k) l.
Proof.
  induction l as [|y l IH]; simpl.
  - rewrite filter_cons, filter_nil. by case_decide.
  - destruct (key y <? key x)%Z eqn:Hlt.
    + apply Z.ltb_lt in Hlt. rewrite !filter_cons, IH.
      destruct (decide (key x = k)), (decide (key y = k)); try done. lia.
    + by rewrite (filter_cons _ x).
Qed.

Lemma filter_key_sorted (k : Z) (l : list A) :
  filter (fun y => key y = k) (sorted key l) = filter (fun y => key y = k) l.
Proof.
  induction l as [|x l IH]; [done|].
  simpl. fold (sorted key l). by rewrite filter_key_insert_by, IH, filter_cons.
Qed.




End SortedMore.

Lemma filter_filter_comm {A} (P Q : A -> Prop) `{!forall x, Decision (P x)}
    `{!forall x, Decision (Q x)} (l : list A) :
  filter P (filter Q l) = filter Q (filter P l).
Proof.
  induction l as [|x l IH]; [done|].
  rewrite !(filter_cons _ x).
  destruct (decide (P x)), (decide (Q x)); rewrite ?filter_cons; repeat case_decide;
    try done; by rewrite IH.
Qed.

(** X4: artifacts with the same modification time come out in the order
    the directory listing had them: for every time [t], the located
    artifacts modified at [t] are the listed [.json] names modified at
    [t], in listing order. *)
Theorem locate_keeps_ties_in_listing_order (fs : FS) (build_directory : pypath)
    (names : list string) :
  listdir fs build_directory = Ok names ->
  let mtime := fun x => getmtime fs (joinpath build_directory x) in
  exists files,
    locate fs build_directory = Ok files
    /\ forall t,
         filter (fun f => mtime f = t) files
         = filter (fun f => mtime f = t)
             (filter (fun f => PyStr.endswith f ".json" = true) names).
Proof.
  intros Hls mtime. unfold locate. rewrite Hls. simpl.
  eexists. split; [reflexivity|]. intros t.
  rewrite filter_filter_comm. fold mtime. rewrite (filter_key_sorted mtime).
  apply filter_filter_comm.
Qed.


(** X6: when the build-info directory cannot be listed, the run ends in
    the exception of [os.listdir] itself, not in [InvalidCompilation], and
    the Aggregator is left as it was. *)
Theorem compile_listdir_error (fs : FS) (target : string) (kwargs : gmap string kwval)
    (build_directory working_dir : pypath) (e : exn) (cc : CryticCompile) :
  detect_directories target kwargs = Ok (build_directory, working_dir) ->
  listdir (fs_after_compile fs target kwargs) build_directory = Raise e ->
  compile fs target kwargs cc = (cc, Raise e).
Proof.
  intros Hdirs Hls. unfold compile, mbind, M_bind, lift. rewrite Hdirs. simpl.
  unfold locate. by rewrite Hls.
Qed.

(** *** The probe *)

(** X7: anything the probe writes on its standard error makes its standard
    output void: the path configuration is then the defaults with the
    explicit overrides, whatever was printed. *)
Theorem probe_stderr_voids_stdout (target : string) (base_cmd : list string)
    (args : gmap string kwval) (ov : gmap string pathval) (stdout stderr : string) :
  hardhat_console (base_cmd ++ ["console"; "--no-compile"]) target
    "console.log(JSON.stringify(config.paths))" = (stdout, stderr) ->
  stderr <> "" ->
  override_paths target args = Ok ov ->
  json_loads "{}" = Some (JObj []) ->
  get_hardhat_paths target base_cmd args = Ok (ov ∪ default_paths target).
Proof.
  intros Hprobe Herr Hov Hjson.
  unfold get_hardhat_paths, run_hardhat_console. rewrite Hov, Hprobe. simpl.
  apply String.eqb_neq in Herr. rewrite Herr. simpl. rewrite Hjson. simpl.
  unfold merge2. by rewrite (left_id_L ∅ (∪)).
Qed.

(** X8: the tolerance for what the probe prints stops at text that is not
    JSON: output that decodes to anything but an object makes
    [_get_hardhat_paths] raise [TypeError]. *)
Theorem probe_non_object_raises (target : string) (base_cmd : list string)
    (args : gmap string kwval) (ov : gmap string pathval) (s : string) (j : json) :
  override_paths target args = Ok ov ->
  run_hardhat_console target base_cmd "console.log(JSON.stringify(config.paths))"
    = Some s ->
  s <> "" ->
  json_loads s = Some j ->
  (forall kv, j <> JObj kv) ->
  get_hardhat_paths target base_cmd args = Raise TypeError.
Proof.
  intros Hov Hprobe Hs Hjson Hobj.
  unfold get_hardhat_paths. rewrite Hov. simpl. rewrite Hprobe.
  apply String.eqb_neq in Hs. rewrite Hs, Hjson.
  destruct j; try done. by destruct (Hobj kv).
Qed.





(** X10: the arguments reach three keys only: two calls that differ in
    their arguments alone agree on every key of the path configuration
    other than [cache], [artifacts] and [root]. *)
Theorem arguments_reach_three_keys (target : string) (base_cmd : list string)
    (args args' : gmap string kwval) (m m' : gmap string pathval) (k : string) :
  get_hardhat_paths target base_cmd args = Ok m ->
  get_hardhat_paths target base_cmd args' = Ok m' ->
  k <> "cache" -> k <> "artifacts" -> k <> "root" ->
  m !! k = m' !! k.
Proof.
  unfold get_hardhat_paths, mbind, result_bind.
  destruct (override_paths target args) as [ov|] eqn:Hov; [|done].
  destruct (override_paths target args') as [ov'|] eqn:Hov'; [|done].
  intros Hm Hm' H1 H2 H3.
  destruct (override_paths_lookup _ _ _ Hov) as (_ & _ & _ & Hk).
  destruct (override_paths_lookup _ _ _ Hov') as (_ & _ & _ & Hk').
  destruct (json_loads _) as [j|].
  - destruct (as_mapping j) as [paths|]; [|done].
    injection Hm as <-. injection Hm' as <-.
    by rewrite !merge2_lookup, Hk, Hk'.
  - injection Hm as <-. injection Hm' as <-.
    by rewrite !merge2_lookup, Hk, Hk'.
Qed.

(** *** The registries of a unit *)

Lemma triple_for_each_exn {S A} (I E : S -> Prop) (body : A -> M S unit) (l : list A) :
  (forall x, triple I (body x) (fun _ => I) E) ->
  triple I (for_each body l) (fun _ => I) E.
Proof.
  intros Hbody. induction l as [|x l IH]; simpl.
  - apply triple_ret.
  - eapply triple_bind; [apply Hbody|]. intros ?. exact IH.
Qed.

Lemma aligned_chained (u : CompilationUnit) : aligned u -> chained u.
Proof.
  intros (H0 & H1 & H2 & H3 & H4 & H5). unfold chained.
  by rewrite H5, H4, H3, H2, H1, H0.
Qed.

Lemma add_contract_aligned (working_dir : pypath) (original_filename name : string)
    (info : json) :
  triple (fun s => aligned (cu s))
         (add_contract working_dir original_filename name info)
         (fun _ s => aligned (cu s)) (fun s => chained (cu s)).
Proof.
  intros s (H0 & H1 & H2 & H3 & H4 & H5).
  unfold add_contract, mbind, M_bind, lift, modify. simpl.
  repeat match goal with
         | |- context [Py.getitem ?j ?k] => destruct (Py.getitem j k) eqn:?; simpl
         | |- context [Py.split_semicolon ?j] => destruct (Py.split_semicolon j) eqn:?; simpl
         | |- context [Py.get ?j ?k ?d] => destruct (Py.get j k d) eqn:?; simpl
         end;
    unfold aligned, chained; simpl; rewrite ?dom_insert_L, ?H0, ?H1, ?H2, ?H3, ?H4, ?H5;
    repeat apply conj; first [reflexivity | apply union_subseteq_r].
Qed.

Lemma parse_build_info_aligned (target : string) (working_dir : pypath) (loaded_json : json) :
  triple (fun s => aligned (cu s))
         (parse_build_info target working_dir loaded_json)
         (fun _ s => aligned (cu s)) (fun s => chained (cu s)).
Proof.
  set (I := fun s : PState => aligned (cu s)).
  set (E := fun s : PState => chained (cu s)).
  assert (forall s, I s -> E s) as HIE by (intros s; apply aligned_chained).
  assert (forall A (r : result A), triple I (lift r) (fun _ => I) E) as Hlift
    by (intros A r; by apply triple_lift_exn).
  unfold parse_build_info, parse_output.
  eapply triple_bind; [apply Hlift|intros header].
  eapply triple_bind;
    [apply (triple_modify I I E); intros s Hs; exact Hs|intros ?].
  eapply triple_bind; [apply Hlift|intros has_contracts].
  eapply triple_bind; [|intros ?].
  { destruct has_contracts; [|apply triple_ret]. unfold add_contracts.
    eapply triple_bind; [apply Hlift|intros contracts].
    eapply triple_bind; [apply Hlift|intros files].
    apply triple_for_each_exn. intros entry.
    eapply triple_bind; [apply Hlift|intros infos].
    apply triple_for_each_exn. intros c. apply add_contract_aligned. }
  eapply triple_bind; [apply Hlift|intros has_sources].
  destruct has_sources; [|apply triple_ret]. unfold add_sources.
  eapply triple_bind; [apply Hlift|intros sources].
  eapply triple_bind; [apply Hlift|intros files].
  apply triple_for_each_exn. intros entry. unfold add_source.
  eapply triple_bind;
    [apply (triple_modify I I E); intros s Hs; exact Hs|intros ?].
  eapply triple_bind;
    [apply (triple_modify I I E); intros s Hs; exact Hs|intros ?].
  eapply triple_bind; [apply Hlift|intros ast].
  apply (triple_modify I I E). intros s Hs. exact Hs.
Qed.

(** X11: after a parse that ends normally, the six per-contract registries
    ([abis], the two bytecode maps, the two source-map maps, [natspec])
    have exactly the contract names as their keys; after a parse that
    raises, each registry has its keys among those of the registry filled
    before it, and [abis] among the contract names. *)
Theorem registries_share_their_keys (target : string) (working_dir : pypath)
    (loaded_json : json) (uid : string) (global : gmap string Filename)
    (st' : PState) (r : result unit) :
  parse_build_info target working_dir loaded_json
    {| cu := fresh_unit uid; global_filenames := global |} = (st', r) ->
  chained (cu st') /\ (r = Ok tt -> aligned (cu st')).
Proof.
  intros Hrun.
  pose proof (parse_build_info_aligned target working_dir loaded_json
                {| cu := fresh_unit uid; global_filenames := global |}) as H.
  rewrite Hrun in H.
  assert (aligned (fresh_unit uid)) as Hfresh.
  { unfold aligned. simpl. by rewrite !dom_empty_L. }
  specialize (H Hfresh). destruct r as [[]|e].
  - split; [by apply aligned_chained|done].
  - split; [exact H|done].
Qed.

(** X12: recording a contract leaves every other contract name as it was:
    its entries in the six registries and its membership in
    [contracts_names] are the same before and after, whether the step ends
    normally or raises. *)
Theorem add_contract_touches_its_name (working_dir : pypath)
    (original_filename name other : string) (info : json) (st : PState) :
  other <> extract_name name ->
  let st' := fst (add_contract working_dir original_filename name info st) in
  abis (cu st') !! other = abis (cu st) !! other
  /\ bytecodes_init (cu st') !! other = bytecodes_init (cu st) !! other
  /\ bytecodes_runtime (cu st') !! other = bytecodes_runtime (cu st) !! other
  /\ srcmaps_init (cu st') !! other = srcmaps_init (cu st) !! other
  /\ srcmaps_runtime (cu st') !! other = srcmaps_runtime (cu st) !! other
  /\ natspec (cu st') !! other = natspec (cu st) !! other
  /\ (other ∈ contracts_names (cu st') <-> other ∈ contracts_names (cu st)).
Proof.
  intros Hne.
  assert (other ∈ {[extract_name name]} ∪ contracts_names (cu st)
          <-> other ∈ contracts_names (cu st)) as Hin.
  { rewrite elem_of_union, elem_of_singleton. split; [by intros [?|?]|by right]. }
  unfold add_contract, mbind, M_bind, lift, modify. simpl.
  repeat match goal with
         | |- context [Py.getitem ?j ?k] => destruct (Py.getitem j k) eqn:?; simpl
         | |- context [Py.split_semicolon ?j] => destruct (Py.split_semicolon j) eqn:?; simpl
         | |- context [Py.get ?j ?k ?d] => destruct (Py.get j k d) eqn:?; simpl
         end;
    rewrite ?lookup_insert_ne by done; repeat apply conj;
    first [reflexivity | apply Hin].
Qed.

(** *** Sources under the legacy versions *)

Lemma set_add_idemp (f : Filename) (s : gmap string Filename) :
  set_add f (set_add f s) = set_add f s.
Proof.
  unfold set_add at 1. by destruct (set_add_self f s) as [g ->].
Qed.

Lemma legacy_loop (target : string) (working_dir : pypath)
    (pre : list (string * json)) (p : string) (info a : json) (st st' : PState) :
  Py.getitem info "ast" = Ok a ->
  for_each (fun e : string * json => add_source target working_dir true (fst e) (snd e))
    (pre ++ [(p, info)]) st = (st', Ok tt) ->
  let f := convert_filename target working_dir in
  asts (cu st') = <[absolute f := a]> (asts (cu st))
  /\ filenames (cu st') = set_add f (filenames (cu st)).
Proof.
  intros Hast. revert st. induction pre as [|e pre IH]; intros st Hrun; simpl in Hrun.
  - apply bind_ok_inv in Hrun as ([] & s1 & Hstep & Hrest).
    rewrite (add_source_ok _ _ _ _ _ a _ Hast) in Hstep.
    injection Hstep as <-. by injection Hrest as <-.
  - apply bind_ok_inv in Hrun as ([] & s1 & Hstep & Hrest).
    destruct (add_source_ok_inv _ _ _ _ _ _ _ Hstep) as [ae Hae]. simpl in Hae.
    rewrite (add_source_ok _ _ _ _ _ ae _ Hae) in Hstep.
    injection Hstep as <-. apply IH in Hrest as [Ha Hf]. simpl in Ha, Hf.
    split.
    + by rewrite Ha, insert_insert_eq.
    + by rewrite Hf, set_add_idemp.
Qed.

Lemma add_sources_loop_has_ast (target : string) (working_dir : pypath) (skip : bool)
    (entries : list (string * json)) (st st' : PState) :
  for_each (fun e : string * json => add_source target working_dir skip (fst e) (snd e))
    entries st = (st', Ok tt) ->
  Forall has_ast entries.
Proof.
  revert st. induction entries as [|[p info] entries IH]; intros st Hrun; [done|].
  simpl in Hrun. apply bind_ok_inv in Hrun as ([] & s1 & Hstep & Hrest).
  constructor; [by eapply add_source_ok_inv|by eapply IH].
Qed.

Lemma parse_sources_loop (target : string) (working_dir : pypath)
    (loaded_json targets_json sources : json) (cv : CompilerVersion)
    (entries : list (string * json)) (uid : string) (global : gmap string Filename)
    (st' : PState) :
  read_header loaded_json = Ok (targets_json, cv) ->
  Py.getitem targets_json "sources" = Ok sources ->
  Py.items sources = Ok entries ->
  parse_build_info target working_dir loaded_json
    {| cu := fresh_unit uid; global_filenames := global |} = (st', Ok tt) ->
  exists s3, filenames (cu s3) = ∅ /\ asts (cu s3) = ∅
    /\ for_each (fun e : string * json =>
                   add_source target working_dir (skip_filename cv) (fst e) (snd e))
         entries s3 = (st', Ok tt).
Proof.
  intros Hheader Hsrc Hitems Hrun.
  unfold parse_build_info in Hrun.
  apply bind_ok_inv in Hrun as (header & s0 & Hh & Hrun).
  apply lift_ok_inv in Hh as [Hh ->]. rewrite Hheader in Hh. injection Hh as <-.
  apply bind_ok_inv in Hrun as ([] & s1 & Hmod & Hrun).
  injection Hmod as <-. simpl in Hrun. unfold parse_output in Hrun.
  apply bind_ok_inv in Hrun as (has_contracts & s2 & Hc & Hrun).
  apply lift_ok_inv in Hc as [Hc ->].
  apply bind_ok_inv in Hrun as ([] & s3 & Hcontracts & Hrun).
  apply bind_ok_inv in Hrun as (has_sources & s4 & Hs & Hrun).
  apply lift_ok_inv in Hs as [Hs ->].
  assert (filenames (cu s3) = ∅ /\ asts (cu s3) = ∅) as [Hf3 Ha3].
  { destruct has_contracts.
    - pose proof (add_contracts_files working_dir targets_json ∅ ∅
                    (on_unit (upd_compiler_version (fun _ => Some cv))
                       {| cu := fresh_unit uid; global_filenames := global |})
                    (conj eq_refl eq_refl)) as H.
      by rewrite Hcontracts in H.
    - by injection Hcontracts as <-. }
  assert (has_sources = true) as ->.
  { destruct targets_json as [| | | | |out]; try discriminate Hsrc.
    simpl in Hsrc, Hs. injection Hs as <-.
    apply dict_has_true. by destruct (PyDict.dict_get "sources" out). }
  unfold add_sources in Hrun.
  apply bind_ok_inv in Hrun as (sources' & s5 & Hg & Hrun).
  apply lift_ok_inv in Hg as [Hg ->]. rewrite Hsrc in Hg. injection Hg as <-.
  apply bind_ok_inv in Hrun as (entries' & s6 & Hi & Hrun).
  apply lift_ok_inv in Hi as [Hi ->]. rewrite Hitems in Hi. injection Hi as <-.
  by exists s3.
Qed.

(** X13: under a legacy version all sources of a document share one slot:
    after a parse that ends normally the unit has a single file, the
    canonicalized target, and a single AST, that of the source listed
    last; the ASTs of the sources before it are overwritten. *)
Theorem legacy_keeps_last_ast (target : string) (working_dir : pypath)
    (loaded_json targets_json sources : json) (cv : CompilerVersion)
    (pre : list (string * json)) (p : string) (info : json)
    (uid : string) (global : gmap string Filename) (st' : PState) :
  read_header loaded_json = Ok (targets_json, cv) ->
  skip_filename cv = true ->
  Py.getitem targets_json "sources" = Ok sources ->
  Py.items sources = Ok (pre ++ [(p, info)])%list ->
  parse_build_info target working_dir loaded_json
    {| cu := fresh_unit uid; global_filenames := global |} = (st', Ok tt) ->
  let f := convert_filename target working_dir in
  exists a,
    Py.getitem info "ast" = Ok a
    /\ asts (cu st') = {[absolute f := a]}
    /\ filenames (cu st') = {[absolute f := f]}.
Proof.
  intros Hheader Hskip Hsrc Hitems Hrun f.
  destruct (parse_sources_loop _ _ _ _ _ _ _ _ _ _ Hheader Hsrc Hitems Hrun)
    as (s3 & Hf3 & Ha3 & Hloop).
  rewrite Hskip in Hloop.
  assert (has_ast (p, info)) as [a Ha].
  { apply add_sources_loop_has_ast in Hloop.
    apply Forall_app in Hloop as [_ Hlast]. by apply Forall_cons in Hlast as [? _]. }
  simpl in Ha. exists a. split; [exact Ha|].
  destruct (legacy_loop _ _ _ _ _ _ _ _ Ha Hloop) as [Hasts Hfiles].
  rewrite Hasts, Hfiles, Ha3, Hf3. split; [done|].
  unfold set_add. by rewrite lookup_empty.
Qed.

(** *** Invariants of the whole parse *)

(** A step of a sequence that keeps [I], be it a read or a mutation that
    [I] does not look at. *)
Ltac triple_keep_step I :=
  eapply triple_bind;
    [first [ apply triple_lift
           | apply (triple_modify I I I); intros ? ?; assumption ]
    |intros ?].

Lemma parse_output_triple (I : PState -> Prop) (target : string) (working_dir : pypath)
    (targets_json : json) (skip : bool) :
  (forall f n info, triple I (add_contract working_dir f n info) (fun _ => I) I) ->
  (forall p info, triple I (add_source target working_dir skip p info) (fun _ => I) I) ->
  triple I (parse_output target working_dir targets_json skip) (fun _ => I) I.
Proof.
  intros Hcontract Hsource. unfold parse_output.
  triple_lift_step.
  eapply triple_bind; [|intros ?].
  { apply triple_if. unfold add_contracts.
    triple_lift_step. triple_lift_step.
    apply triple_for_each. intros entry.
    triple_lift_step. apply triple_for_each. intros c. apply Hcontract. }
  triple_lift_step.
  apply triple_if. unfold add_sources.
  triple_lift_step. triple_lift_step.
  apply triple_for_each. intros entry. apply Hsource.
Qed.

Lemma parse_build_info_triple (I : PState -> Prop) (target : string)
    (working_dir : pypath) (loaded_json : json) :
  (forall cv s, I s -> I (on_unit (upd_compiler_version (fun _ => Some cv)) s)) ->
  (forall f n info, triple I (add_contract working_dir f n info) (fun _ => I) I) ->
  (forall skip p info,
     triple I (add_source target working_dir skip p info) (fun _ => I) I) ->
  triple I (parse_build_info target working_dir loaded_json) (fun _ => I) I.
Proof.
  intros Hcv Hcontract Hsource. unfold parse_build_info.
  triple_lift_step.
  eapply triple_bind; [apply (triple_modify I I I); intros s Hs; by apply Hcv|intros ?].
  apply parse_output_triple; [exact Hcontract|apply Hsource].
Qed.

(** Recording a contract keeps an invariant that looks at none of the
    registries it writes. *)
Ltac add_contract_keeps I :=
  unfold add_contract;
  repeat (eapply triple_bind;
    [first [ apply triple_lift
           | apply (triple_modify I I I); intros ? ?; assumption ]
    |intros ?]);
  apply (triple_modify I I I); intros ? ?; assumption.

Lemma add_source_global_keeps (G : gmap string Filename) (target : string)
    (working_dir : pypath) (skip : bool) (p : string) (info : json) :
  triple (global_keeps G) (add_source target working_dir skip p info)
         (fun _ => global_keeps G) (global_keeps G).
Proof.
  set (I := global_keeps G). unfold add_source.
  eapply triple_bind;
    [apply (triple_modify I I I); intros s Hs k f Hk; simpl;
     by apply set_add_mono, Hs|intros ?].
  triple_keep_step I. triple_keep_step I.
  apply (triple_modify I I I). intros s Hs. exact Hs.
Qed.

Lemma parse_global_keeps (G : gmap string Filename) (target : string)
    (working_dir : pypath) (loaded_json : json) :
  triple (global_keeps G) (parse_build_info target working_dir loaded_json)
         (fun _ => global_keeps G) (global_keeps G).
Proof.
  apply parse_build_info_triple.
  - intros cv s Hs. exact Hs.
  - intros f n info. add_contract_keeps (global_keeps G).
  - intros skip p info. apply add_source_global_keeps.
Qed.

Lemma add_source_unit_files_global (target : string) (working_dir : pypath)
    (skip : bool) (p : string) (info : json) :
  triple unit_files_global (add_source target working_dir skip p info)
         (fun _ => unit_files_global) unit_files_global.
Proof.
  set (I := unit_files_global).
  set (f := source_path target working_dir skip p).
  set (I' := fun s : PState =>
               unit_files_global s /\ is_Some (global_filenames s !! absolute f)).
  unfold add_source. fold f.
  eapply triple_bind; [apply (triple_modify I I' I)|intros ?].
  { intros s Hs. split; [|apply set_add_self].
    intros k Hk. destruct (Hs k Hk) as [g Hg]. exists g. simpl. by apply set_add_mono. }
  eapply triple_bind; [apply (triple_modify I' I I)|intros ?].
  { intros s [Hs Hf] k [g Hg]. simpl in Hg.
    apply set_add_inv in Hg as [Hg|[-> _]]; [by eapply Hs|exact Hf]. }
  triple_keep_step I.
  apply (triple_modify I I I). intros s Hs. exact Hs.
Qed.

(** X14: after the parse of any document into a fresh unit, normal end or
    not, every file of the unit is in the run-global filename set, and the
    members the global set had before are still there, unchanged. *)
Theorem unit_files_are_global (target : string) (working_dir : pypath)
    (loaded_json : json) (uid : string) (global : gmap string Filename) :
  let st' := fst (parse_build_info target working_dir loaded_json
                    {| cu := fresh_unit uid; global_filenames := global |}) in
  (forall k, is_Some (filenames (cu st') !! k) -> is_Some (global_filenames st' !! k))
  /\ (forall k f, global !! k = Some f -> global_filenames st' !! k = Some f).
Proof.
  intros st'. subst st'.
  set (st0 := {| cu := fresh_unit uid; global_filenames := global |}).
  split.
  - assert (triple unit_files_global (parse_build_info target working_dir loaded_json)
              (fun _ => unit_files_global) unit_files_global) as H.
    { apply parse_build_info_triple.
      - intros cv s Hs. exact Hs.
      - intros f n info. add_contract_keeps unit_files_global.
      - intros skip p info. apply add_source_unit_files_global. }
    assert (unit_files_global st0) as H0.
    { intros k [g Hg]. simpl in Hg. by rewrite lookup_empty in Hg. }
    specialize (H st0 H0).
    by destruct (parse_build_info _ _ _ st0) as [s1 [[]|e]].
  - pose proof (parse_global_keeps global target working_dir loaded_json st0) as H.
    assert (global_keeps global st0) as H0 by (by intros k f Hk).
    specialize (H H0).
    by destruct (parse_build_info _ _ _ st0) as [s1 [[]|e]].
Qed.

Lemma compile_file_keeps_filenames (G : gmap string Filename) (fs : FS) (target : string)
    (working_dir build_directory : pypath) (file : string) :
  triple (fun cc => forall k f, G !! k = Some f -> cc_filenames cc !! k = Some f)
         (compile_file fs target working_dir build_directory file)
         (fun _ cc => forall k f, G !! k = Some f -> cc_filenames cc !! k = Some f)
         (fun cc => forall k f, G !! k = Some f -> cc_filenames cc !! k = Some f).
Proof.
  intros cc Hcc. unfold compile_file, mbind, M_bind, new_unit.
  destruct (compilation_units cc !! uniq_id_of file); [exact Hcc|].
  unfold in_unit. simpl.
  set (st0 := {| cu := fresh_unit (uniq_id_of file); global_filenames := cc_filenames cc |}).
  assert (global_keeps G
            (fst (load_build_info fs target working_dir
                    (joinpath build_directory file) st0))) as H.
  { unfold load_build_info. destruct (json_loads _) as [loaded_json|]; [|exact Hcc].
    pose proof (parse_global_keeps G target working_dir loaded_json st0 Hcc) as H.
    by destruct (parse_build_info _ _ _ st0) as [s1 [[]|e]]. }
  by destruct (load_build_info _ _ _ _ st0) as [s1 [[]|e]].
Qed.

(** X15: a run never takes a filename out of the run-global set, nor
    replaces the object stored for it: what was a member before [compile]
    is the same member after it, normal end or not. *)
Theorem compile_keeps_filenames (fs : FS) (target : string) (kwargs : gmap string kwval)
    (cc : CryticCompile) (k : string) (f : Filename) :
  cc_filenames cc !! k = Some f ->
  cc_filenames (fst (compile fs target kwargs cc)) !! k = Some f.
Proof.
  intros Hk.
  set (I := fun c : CryticCompile =>
              forall k f, cc_filenames cc !! k = Some f -> cc_filenames c !! k = Some f).
  assert (triple I (compile fs target kwargs) (fun _ => I) I) as H.
  { unfold compile.
    triple_lift_step. triple_lift_step.
    match goal with |- triple _ (match ?l with _ => _ end) _ _ => destruct l end.
    - apply triple_lift.
    - apply triple_for_each. intros file. apply compile_file_keeps_filenames. }
  assert (I cc) as H0 by (by intros k' f' Hk').
  specialize (H cc H0).
  destruct (compile fs target kwargs cc) as [c1 [[]|e]]; by apply H.
Qed.

(** *** Stored source maps *)

Lemma split_no_sep (sep : ascii) (s : string) :
  Forall (fun e => PyStr.contains (String sep "") e = false) (PyStr.split sep s).
Proof.
  induction s as [|c s IH]; [by repeat constructor|].
  cbn [PyStr.split]. destruct (Ascii.eqb_spec c sep) as [->|Hne].
  - by constructor.
  - destruct (PyStr.split sep s) as [|h t] eqn:Hs; [by apply split_not_nil in Hs|].
    apply Forall_cons in IH as [Hh Ht]. constructor; [|exact Ht].
    simpl. simpl in Hh. destruct (ascii_dec sep c) as [->|_]; [done|].
    simpl. by destruct h.
Qed.

Lemma split_semicolon_wf (j : json) (entries : list string) :
  Py.split_semicolon j = Ok entries -> srcmap_wf entries.
Proof.
  destruct j; try done. intros [= <-].
  split; [apply split_not_nil|apply split_no_sep].
Qed.

Lemma triple_lift_val {S A} (P E : S -> Prop) (r : result A) :
  (forall s, P s -> E s) ->
  triple P (lift r) (fun a s => P s /\ r = Ok a) E.
Proof. intros HE s Hs. unfold lift. destruct r; auto. Qed.

Lemma srcmaps_wf_init (n : string) (entries : list string) (u : CompilationUnit) :
  srcmaps_wf u -> srcmap_wf entries -> srcmaps_wf (upd_srcmaps_init <[n := entries]> u).
Proof.
  intros Hu Hwf n' l [Hl|Hl]; simpl in Hl.
  - destruct (decide (n = n')) as [<-|Hne].
    + rewrite lookup_insert_eq in Hl. by injection Hl as <-.
    + rewrite lookup_insert_ne in Hl by done. apply (Hu n'). by left.
  - apply (Hu n'). by right.
Qed.

Lemma srcmaps_wf_runtime (n : string) (entries : list string) (u : CompilationUnit) :
  srcmaps_wf u -> srcmap_wf entries -> srcmaps_wf (upd_srcmaps_runtime <[n := entries]> u).
Proof.
  intros Hu Hwf n' l [Hl|Hl]; simpl in Hl.
  - apply (Hu n'). by left.
  - destruct (decide (n = n')) as [<-|Hne].
    + rewrite lookup_insert_eq in Hl. by injection Hl as <-.
    + rewrite lookup_insert_ne in Hl by done. apply (Hu n'). by right.
Qed.

Lemma add_contract_srcmaps_wf (working_dir : pypath) (f n : string) (info : json) :
  triple (fun s => srcmaps_wf (cu s)) (add_contract working_dir f n info)
         (fun _ s => srcmaps_wf (cu s)) (fun s => srcmaps_wf (cu s)).
Proof.
  set (I := fun s : PState => srcmaps_wf (cu s)).
  unfold add_contract.
  do 15 triple_keep_step I.
  eapply triple_bind; [by apply (triple_lift_val I I)|intros entries].
  eapply triple_bind;
    [apply (triple_modify _ I I); intros s [Hs Heq];
     apply srcmaps_wf_init; [exact Hs|by eapply split_semicolon_wf]
    |intros ?].
  do 3 triple_keep_step I.
  eapply triple_bind; [by apply (triple_lift_val I I)|intros entries'].
  eapply triple_bind;
    [apply (triple_modify _ I I); intros s [Hs Heq];
     apply srcmaps_wf_runtime; [exact Hs|by eapply split_semicolon_wf]
    |intros ?].
  do 2 triple_keep_step I.
  apply (triple_modify I I I). intros s Hs. exact Hs.
Qed.

(** X16: every source map a parse stores, for any document and whether the
    parse ends normally or raises, is a sequence of at least one entry, and
    no stored entry holds the delimiter [;]. *)
Theorem stored_srcmaps_wellformed (target : string) (working_dir : pypath)
    (loaded_json : json) (uid : string) (global : gmap string Filename) :
  let st' := fst (parse_build_info target working_dir loaded_json
                    {| cu := fresh_unit uid; global_filenames := global |}) in
  forall n entries,
    srcmaps_init (cu st') !! n = Some entries
    \/ srcmaps_runtime (cu st') !! n = Some entries ->
    entries <> [] /\ Forall (fun e => PyStr.contains ";" e = false) entries.
Proof.
  intros st'. subst st'.
  set (st0 := {| cu := fresh_unit uid; global_filenames := global |}).
  set (I := fun s : PState => srcmaps_wf (cu s)).
  assert (triple I (parse_build_info target working_dir loaded_json) (fun _ => I) I) as H.
  { apply parse_build_info_triple.
    - intros cv s Hs. exact Hs.
    - intros f n info. apply add_contract_srcmaps_wf.
    - intros skip p info. unfold add_source.
      do 3 triple_keep_step I. apply (triple_modify I I I). intros s Hs. exact Hs. }
  assert (I st0) as H0.
  { intros n entries [Hn|Hn]; simpl in Hn; by rewrite lookup_empty in Hn. }
  specialize (H st0 H0).
  destruct (parse_build_info _ _ _ st0) as [s1 [[]|e]]; exact H.
Qed.

(** *** The compiler version of a unit *)

(** X17: a document whose header cannot be read leaves the unit untouched.
    One whose header can be read gives the unit the compiler version of
    the header, whatever happens in the rest of the parse; its family is
    [solc] exactly when [input.language] is the string [Solidity], and
    [vyper] for every other value. *)
Theorem compiler_version_from_header (target : string) (working_dir : pypath)
    (loaded_json : json) (st : PState) :
  (forall e, read_header loaded_json = Raise e ->
     parse_build_info target working_dir loaded_json st = (st, Raise e))
  /\ (forall targets_json cv,
        read_header loaded_json = Ok (targets_json, cv) ->
        compiler_version
          (cu (fst (parse_build_info target working_dir loaded_json st))) = Some cv
        /\ (compiler cv = "solc" \/ compiler cv = "vyper")
        /\ (compiler cv = "solc" <->
             exists input_json,
               Py.getitem loaded_json "input" = Ok input_json
               /\ Py.getitem input_json "language" = Ok (JStr "Solidity"))).
Proof.
  split.
  - intros e He. unfold parse_build_info, mbind, M_bind, lift. by rewrite He.
  - intros targets_json cv Hh. split; [|split].
    + unfold parse_build_info, mbind, M_bind, lift, modify. rewrite Hh. simpl.
      set (I := fun s : PState => compiler_version (cu s) = Some cv).
      assert (triple I (parse_output target working_dir targets_json (skip_filename cv))
                (fun _ => I) I) as H.
      { apply parse_output_triple.
        - intros f n info. add_contract_keeps I.
        - intros p info. unfold add_source.
          do 3 triple_keep_step I. apply (triple_modify I I I). intros s Hs. exact Hs. }
      specialize (H (on_unit (upd_compiler_version (fun _ => Some cv)) st) eq_refl).
      by destruct (parse_output _ _ _ _ _) as [s1 [[]|e]].
    + unfold read_header, mbind, result_bind in Hh.
      repeat match type of Hh with
             | context [Py.getitem ?j ?k] => destruct (Py.getitem j k); [|done]
             end.
      injection Hh as _ <-. simpl. unfold compiler_of_language.
      destruct (Py.is_str _ _); [by left|by right].
    + unfold read_header, mbind, result_bind in Hh.
      destruct (Py.getitem loaded_json "output"); [|done].
      destruct (Py.getitem loaded_json "solcVersion"); [|done].
      destruct (Py.getitem loaded_json "input") as [input_json|]; [|done].
      destruct (Py.getitem input_json "language") as [language|] eqn:Hl; [|done].
      repeat match type of Hh with
             | context [Py.getitem ?j ?k] => destruct (Py.getitem j k); [|done]
             end.
      injection Hh as _ <-. simpl. unfold compiler_of_language.
      destruct (Py.is_str "Solidity" language) eqn:Hs.
      * apply is_str_true in Hs as ->. split; [|done]. intros _. by exists input_json.
      * split; [done|]. intros (input' & [= <-] & Hl').
        rewrite Hl in Hl'. injection Hl' as ->. discriminate Hs.
Qed.

(** *** Detection and the form of the target *)

Lemma app_assoc_str (a b c : string) : (a +:+ b) +:+ c = a +:+ (b +:+ c).
Proof.
  induction a as [|x a IH]; [done|].
  change (String x ((a +:+ b) +:+ c) = String x (a +:+ (b +:+ c))). by rewrite IH.
Qed.

(** X18: a slash at the end of the target changes nothing for the
    detection: [is_supported] gives the same answer for a non-empty target
    with and without it. *)
Theorem is_supported_trailing_slash (fs : FS) (target : string)
    (kwargs : gmap string kwval) :
  target <> "" ->
  PyStr.endswith target "/" = false ->
  is_supported fs (target +:+ "/") kwargs = is_supported fs target kwargs.
Proof.
  intros Hne Hslash.
  assert (forall name, os_path_join (target +:+ "/") name = os_path_join target name)
    as Hjoin.
  { intros name. unfold os_path_join. rewrite Hslash.
    assert (PyStr.endswith (target +:+ "/") "/" = true) as ->
      by (apply endswith_iff; by exists target).
    apply String.eqb_neq in Hne. rewrite Hne.
    assert (String.eqb (target +:+ "/") "" = false) as ->
      by (apply String.eqb_neq; by destruct target).
    apply app_assoc_str. }
  unfold is_supported. by rewrite !Hjoin.
Qed.

(** *** Contract names and files *)

Lemma in_entry_add_iff (f : Filename) (n n' key : string) (u : CompilationUnit) :
  in_entry (upd_filename_to_contracts (defaultdict_add f n) u) n' key
  <-> in_entry u n' key \/ (n' = n /\ key = absolute f).
Proof.
  split.
  - intros (f1 & names1 & Hkey & Hin). simpl in Hkey. unfold defaultdict_add in Hkey.
    destruct (decide (absolute f = key)) as [<-|Hne].
    + destruct (filename_to_contracts u !! absolute f) as [[f0 names0]|] eqn:Hold;
        rewrite lookup_insert_eq in Hkey; injection Hkey as <- <-.
      * apply elem_of_union in Hin as [Hin|Hin].
        -- apply elem_of_singleton in Hin. by right.
        -- left. by exists f0, names0.
      * apply elem_of_singleton in Hin. by right.
    + left. exists f1, names1. split; [|done].
      destruct (filename_to_contracts u !! absolute f) as [[f0 names0]|];
        by rewrite lookup_insert_ne in Hkey.
  - intros [Hold|[-> ->]]; [by apply in_entry_add|apply in_entry_self].
Qed.

Lemma add_contract_names_are_entries (working_dir : pypath) (f name : string)
    (info : json) :
  triple (fun s => names_are_entries (cu s)) (add_contract working_dir f name info)
         (fun _ s => names_are_entries (cu s)) (fun s => names_are_entries (cu s)).
Proof.
  set (I := fun s : PState => names_are_entries (cu s)).
  set (n := extract_name name).
  set (I1 := fun s : PState =>
               forall n', n' ∈ contracts_names (cu s)
                          <-> n' = n \/ exists key, in_entry (cu s) n' key).
  unfold add_contract. fold n.
  eapply triple_bind; [apply (triple_modify I I1 I)|intros ?].
  { intros s Hs n'. simpl. rewrite elem_of_union, elem_of_singleton, (Hs n').
    split; (intros [?|?]; [by left|by right]). }
  eapply triple_bind; [apply (triple_modify I1 I I)|intros ?].
  { intros s Hs n'. simpl. rewrite (Hs n'). split.
    - intros [->|[key Hkey]].
      + exists (absolute (convert_filename f working_dir)). apply in_entry_self.
      + exists key. by apply in_entry_add.
    - intros [key Hkey]. apply in_entry_add_iff in Hkey as [Hkey|[-> _]];
        [right; by exists key|by left]. }
  repeat (eapply triple_bind;
    [first [ apply triple_lift
           | apply (triple_modify I I I); intros ? ?; assumption ]
    |intros ?]).
  apply (triple_modify I I I); intros ? ?; assumption.
Qed.

(** X20: in every state a parse can leave, normal end or not, the contract
    names of the unit are exactly the names that the entries of
    [filename_to_contracts] hold: each name is under at least one file, and
    no file holds a name that is not a contract name. *)
Theorem contract_names_are_entries (target : string) (working_dir : pypath)
    (loaded_json : json) (uid : string) (global : gmap string Filename) :
  let st' := fst (parse_build_info target working_dir loaded_json
                    {| cu := fresh_unit uid; global_filenames := global |}) in
  forall n,
    n ∈ contracts_names (cu st')
    <-> exists key f names,
          filename_to_contracts (cu st') !! key = Some (f, names) /\ n ∈ names.
Proof.
  intros st'. subst st'.
  set (st0 := {| cu := fresh_unit uid; global_filenames := global |}).
  set (I := fun s : PState => names_are_entries (cu s)).
  assert (triple I (parse_build_info target working_dir loaded_json) (fun _ => I) I) as H.
  { apply parse_build_info_triple.
    - intros cv s Hs. exact Hs.
    - intros f n info. apply add_contract_names_are_entries.
    - intros skip p info. unfold add_source.
      do 3 triple_keep_step I. apply (triple_modify I I I). intros s Hs. exact Hs. }
  assert (I st0) as H0.
  { intros n. simpl. split; [by intros ?%not_elem_of_empty|].
    intros (key & f & names & Hkey & _). simpl in Hkey. by rewrite lookup_empty in Hkey. }
  specialize (H st0 H0). intros n.
  assert (names_are_entries (cu (fst (parse_build_info target working_dir loaded_json st0))))
    as Hfinal by (by destruct (parse_build_info _ _ _ st0) as [s1 [[]|e]]).
  exact (Hfinal n).
Qed.

End Hardhat.

(** X19: with [hardhat_ignore_compile] or [ignore_compile] set, the run
    does not depend on the compile step at all: whatever that step would
    have done to the file system, the result is the same. *)
Theorem compile_ignores_compile_step
    (extract_name : string -> string) (convert_filename : string -> pypath -> Filename)
    (json_loads : string -> option json)
    (hardhat_console : list string -> string -> string -> string * string)
    (step step' : list string -> string -> FS -> FS)
    (fs : FS) (target : string) (kwargs : gmap string kwval) (cc : CryticCompile) :
  truthy (kwargs_get kwargs "hardhat_ignore_compile" (KBool false))
  || truthy (kwargs_get kwargs "ignore_compile" (KBool false)) = true ->
  compile extract_name convert_filename json_loads hardhat_console step
    fs target kwargs cc
  = compile extract_name convert_filename json_loads hardhat_console step'
      fs target kwargs cc.
Proof.
  intros Hignore. unfold compile, fs_after_compile. by rewrite Hignore.
Qed.

(** ** The statements on the sample environment *)

(** C1, as stated, fails: a document that declares the language [Vyper]
    with the version string [0.4.0] resolves to the family [vyper], and
    its source [a.vy] is still recorded as the canonicalized target path
    and not under its own path. *)
Lemma legacy_substitution_ignores_family :
  let cv := {| compiler := "vyper"; version := JStr "0.4.0"; optimized := JBool true |} in
  let u := cu (fst (parse_build_info Sample.extract_name Sample.convert_filename
                      "proj" (Path ["proj"; "proj"]) Sample.vyper_040 Sample.st0)) in
  read_header Sample.vyper_040
  = Ok (JObj [("sources", JObj [("a.vy", JObj [("ast", JNull)])])], cv)
  /\ skip_filename cv = true
  /\ filenames u !! "proj/proj/proj"
     = Some (Sample.convert_filename "proj" (Path ["proj"; "proj"]))
  /\ filenames u !! "proj/proj/a.vy" = None
  /\ ~ (skip_filename cv = true <->
        compiler cv = "solc" /\ exists s, version cv = JStr s /\ s ∈ legacy_versions).
Proof.
  intros cv u.
  split; [reflexivity|]. split; [reflexivity|].
  split; [vm_compute; reflexivity|]. split; [vm_compute; reflexivity|].
  intros [H _]. destruct (H eq_refl) as [Hc _]. discriminate Hc.
Qed.

Lemma legacy_substitution_by_version_witness :
  let wd := Path ["proj"; "proj"] in
  let st' := fst (parse_build_info Sample.extract_name Sample.convert_filename
                    "proj" wd Sample.vyper_040 Sample.st0) in
  parse_build_info Sample.extract_name Sample.convert_filename
    "proj" wd Sample.vyper_040 Sample.st0 = (st', Ok tt)
  /\ forall k f, filenames (cu st') !! k = Some f ->
       f = Sample.convert_filename "proj" wd.
Proof.
  intros wd st'.
  assert (parse_build_info Sample.extract_name Sample.convert_filename
            "proj" wd Sample.vyper_040 Sample.st0 = (st', Ok tt)) as Hrun
    by (vm_compute; reflexivity).
  split; [exact Hrun|].
  destruct (legacy_substitution_by_version
              Sample.extract_name Sample.convert_filename "proj" wd
              Sample.vyper_040
              (JObj [("sources", JObj [("a.vy", JObj [("ast", JNull)])])])
              (JObj [("a.vy", JObj [("ast", JNull)])])
              {| compiler := "vyper"; version := JStr "0.4.0"; optimized := JBool true |}
              [("a.vy", JObj [("ast", JNull)])] "unit" ∅ st'
              eq_refl eq_refl eq_refl Hrun) as (_ & _ & Hlegacy & _).
  apply Hlegacy. reflexivity.
Defined.

Lemma parse_minimal_artifact_witness :
  Sample.extract_name "Foo" = "Foo"
  /\ exists st',
       parse_build_info Sample.extract_name Sample.convert_filename
         "proj" (Path ["proj"; "proj"]) Sample.minimal Sample.st0 = (st', Ok tt)
       /\ contracts_names (cu st') = {["Foo"]}
       /\ bytecodes_init (cu st') !! "Foo" = Some (JStr "60")
       /\ srcmaps_init (cu st') !! "Foo" = Some ["1:2:0"; "3:4:0"].
Proof.
  split; [reflexivity|].
  apply (parse_minimal_artifact Sample.extract_name Sample.convert_filename
           "proj" (Path ["proj"; "proj"]) "unit" ∅).
  reflexivity.
Defined.

Lemma locate_oldest_first_witness :
  listdir Sample.fs Sample.build_dir = Ok ["a.json"; "b.json"; "notes.txt"; "c.json"]
  /\ exists files,
       locate Sample.fs Sample.build_dir = Ok files
       /\ files = ["c.json"; "b.json"; "a.json"]
       /\ forall i j a b, files !! i = Some a -> files !! j = Some b ->
            (getmtime Sample.fs (joinpath Sample.build_dir a)
             < getmtime Sample.fs (joinpath Sample.build_dir b))%Z -> i < j.
Proof.
  split; [reflexivity|].
  destruct (locate_oldest_first Sample.fs Sample.build_dir
              ["a.json"; "b.json"; "notes.txt"; "c.json"] eq_refl)
    as (files & Hloc & _ & _ & _ & Hprec).
  exists files. split; [exact Hloc|]. split; [|exact Hprec].
  assert (locate Sample.fs Sample.build_dir = Ok ["c.json"; "b.json"; "a.json"]) as H
    by reflexivity.
  congruence.
Defined.

Lemma compile_no_artifacts_witness :
  let build_directory := Path ["proj"; "proj"; "artifacts"; "build-info"] in
  detect_directories Sample.json_loads Sample.hardhat_console "proj" ∅
  = Ok (build_directory, Path ["proj"; "proj"])
  /\ listdir (fs_after_compile Sample.hardhat_compile Sample.fs_no_artifact "proj" ∅)
       build_directory = Ok ["notes.txt"; "cache"]
  /\ compile Sample.extract_name Sample.convert_filename Sample.json_loads
       Sample.hardhat_console Sample.hardhat_compile Sample.fs_no_artifact "proj" ∅
       Sample.cc0
     = (Sample.cc0, Raise (InvalidCompilation ["proj"; "proj"; "artifacts"; "build-info"])).
Proof.
  intros build_directory.
  assert (detect_directories Sample.json_loads Sample.hardhat_console "proj" ∅
          = Ok (build_directory, Path ["proj"; "proj"])) as Hdirs
    by (vm_compute; reflexivity).
  split; [exact Hdirs|]. split; [reflexivity|].
  apply (compile_no_artifacts Sample.extract_name Sample.convert_filename
           Sample.json_loads Sample.hardhat_console Sample.hardhat_compile
           Sample.fs_no_artifact "proj" ∅ build_directory (Path ["proj"; "proj"])
           ["notes.txt"; "cache"] Sample.cc0 Hdirs eq_refl).
  repeat constructor.
Defined.

(** C5, as stated, fails: when two source files of one document declare a
    contract of the same name, the name has an ABI and is in the value-sets
    of two entries of [filename_to_contracts], not of exactly one. *)
Lemma same_name_in_two_files :
  let u := cu (fst (parse_build_info Sample.extract_name Sample.convert_filename
                      "proj" (Path ["proj"; "proj"]) Sample.two_files Sample.st0)) in
  is_Some (abis u !! "Foo")
  /\ in_entry u "Foo" "proj/proj/A.sol"
  /\ in_entry u "Foo" "proj/proj/B.sol"
  /\ ~ (forall name, is_Some (abis u !! name) ->
          name ∈ contracts_names u /\ exists! key, in_entry u name key).
Proof.
  intros u.
  assert (in_entry u "Foo" "proj/proj/A.sol") as HA.
  { eexists _, _. split; [vm_compute; reflexivity|]. vm_compute. reflexivity. }
  assert (in_entry u "Foo" "proj/proj/B.sol") as HB.
  { eexists _, _. split; [vm_compute; reflexivity|]. vm_compute. reflexivity. }
  assert (is_Some (abis u !! "Foo")) as Habi by (eexists; vm_compute; reflexivity).
  repeat split; try done.
  intros Hclaim. destruct (Hclaim "Foo" Habi) as [_ (key & _ & Huniq)].
  pose proof (Huniq _ HA) as H1. pose proof (Huniq _ HB) as H2. congruence.
Qed.

Lemma parse_keeps_unit_invariant_witness :
  let st' := fst (parse_build_info Sample.extract_name Sample.convert_filename
                    "proj" (Path ["proj"; "proj"]) Sample.two_files Sample.st0) in
  is_Some (abis (cu st') !! "Foo")
  /\ "Foo" ∈ contracts_names (cu st')
  /\ exists key f names,
       filename_to_contracts (cu st') !! key = Some (f, names) /\ "Foo" ∈ names.
Proof.
  intros st'.
  assert (is_Some (abis (cu st') !! "Foo")) as Habi by (eexists; vm_compute; reflexivity).
  split; [exact Habi|].
  apply (parse_keeps_unit_invariant Sample.extract_name Sample.convert_filename
           "proj" (Path ["proj"; "proj"]) Sample.two_files "unit" ∅).
  exact Habi.
Defined.

Lemma sections_are_optional_witness :
  let out := [("sources", JObj [("A.sol", JObj [("ast", JNull)]);
                                ("B.sol", JObj [("ast", JBool true)])])] in
  let cv := {| compiler := "solc"; version := JStr "0.8.1"; optimized := JBool true |} in
  let wd := Path ["proj"; "proj"] in
  read_header Sample.sources_only = Ok (JObj out, cv)
  /\ PyDict.dict_has "contracts" out = false
  /\ (exists st',
       parse_build_info Sample.extract_name Sample.convert_filename
         "proj" wd Sample.sources_only Sample.st0 = (st', Ok tt)
       /\ contract_registries_empty (cu st')
       /\ is_Some (filenames (cu st') !! "proj/proj/A.sol")
       /\ is_Some (asts (cu st') !! "proj/proj/B.sol"))
  /\ exists st',
       parse_build_info Sample.extract_name Sample.convert_filename
         "proj" wd Sample.no_sections Sample.st0 = (st', Ok tt)
       /\ contract_registries_empty (cu st')
       /\ filenames (cu st') = ∅ /\ asts (cu st') = ∅.
Proof.
  intros out cv wd.
  split; [reflexivity|]. split; [reflexivity|]. split; cycle 1.
  { destruct (sections_are_optional Sample.extract_name Sample.convert_filename
                "proj" wd Sample.no_sections [] cv "unit" ∅ eq_refl) as (_ & Hneither & _).
    destruct (Hneither eq_refl eq_refl) as (st' & Hrun & Hempty & Hf & Ha & _).
    by exists st'. }
  destruct (sections_are_optional Sample.extract_name Sample.convert_filename
              "proj" wd Sample.sources_only out cv "unit" ∅ eq_refl) as (Hsources & _ & _).
  destruct (Hsources eq_refl
              (JObj [("A.sol", JObj [("ast", JNull)]); ("B.sol", JObj [("ast", JBool true)])])
              [("A.sol", JObj [("ast", JNull)]); ("B.sol", JObj [("ast", JBool true)])]
              eq_refl eq_refl)
    as (st' & Hrun & Hempty & Hin).
  { repeat constructor; eexists; reflexivity. }
  exists st'. split; [exact Hrun|]. split; [exact Hempty|]. split.
  - apply (Hin ("A.sol", JObj [("ast", JNull)])). left.
  - apply (Hin ("B.sol", JObj [("ast", JBool true)])). right. left.
Defined.

Lemma srcmaps_split_roundtrip_witness :
  exists st',
    add_contract Sample.extract_name Sample.convert_filename (Path ["proj"; "proj"])
      "A.sol" "A.sol:Foo" (Sample.info "60" "61") Sample.st0 = (st', Ok tt)
    /\ srcmaps_init (cu st') !! "Foo" = Some ["1:2:0"; "3:4:0"]
    /\ srcmaps_runtime (cu st') !! "Foo" = Some ["5:6:0"]
    /\ PyStr.join ";" ["1:2:0"; "3:4:0"] = "1:2:0;3:4:0"
    /\ PyStr.join ";" ["5:6:0"] = "5:6:0".
Proof.
  apply (srcmaps_split_roundtrip Sample.extract_name Sample.convert_filename
           (Path ["proj"; "proj"]) "A.sol" "A.sol:Foo" (Sample.info "60" "61")
           (JArr [])
           (JObj [("bytecode", JObj [("object", JStr "60"); ("sourceMap", JStr "1:2:0;3:4:0")]);
                  ("deployedBytecode", JObj [("object", JStr "61"); ("sourceMap", JStr "5:6:0")])])
           (JObj [("object", JStr "60"); ("sourceMap", JStr "1:2:0;3:4:0")])
           (JObj [("object", JStr "61"); ("sourceMap", JStr "5:6:0")])
           (JStr "60") (JStr "61") "1:2:0;3:4:0" "5:6:0" Sample.st0);
    reflexivity.
Defined.

Lemma get_hardhat_paths_layers_witness :
  let args : gmap string kwval := {["hardhat_cache_directory" := KStr "c"]} in
  let ov : gmap string pathval := {["cache" := PVPath (Path ["proj"; "c"])]} in
  override_paths "proj" args = Ok ov
  /\ run_hardhat_console Sample.hardhat_console_reporting "proj" ["npx"; "hardhat"]
       "console.log(JSON.stringify(config.paths))" = Some Sample.reported_text
  /\ Sample.json_loads Sample.reported_text
     = Some (JObj [("artifacts", JStr "build"); ("cache", JStr "tmp")])
  /\ (exists m,
       get_hardhat_paths Sample.json_loads Sample.hardhat_console_reporting
         "proj" ["npx"; "hardhat"] args = Ok m
       /\ m !! "cache" = Some (PVPath (Path ["proj"; "c"]))
       /\ m !! "artifacts" = Some (PVJson (JStr "build"))
       /\ m !! "root" = Some (PVPath (Path ["proj"])))
  /\ exists m,
       get_hardhat_paths Sample.json_loads Sample.hardhat_console
         "proj" ["npx"; "hardhat"] args = Ok m
       /\ m !! "cache" = Some (PVPath (Path ["proj"; "c"]))
       /\ m !! "artifacts" = Some (PVPath (Path ["proj"; "artifacts"])).
Proof.
  intros args ov.
  assert (override_paths "proj" args = Ok ov) as Hov by (vm_compute; reflexivity).
  split; [exact Hov|]. split; [reflexivity|]. split; [reflexivity|].
  split; cycle 1.
  { destruct (get_hardhat_paths_layers Sample.json_loads Sample.hardhat_console
                "proj" ["npx"; "hardhat"] args ov (Some "") Hov eq_refl)
      as (_ & _ & _ & Hempty & _).
    destruct (Hempty (or_intror eq_refl) eq_refl) as (m & Hpaths & Hm).
    exists m. split; [exact Hpaths|].
    rewrite !Hm. unfold layered. split; vm_compute; reflexivity. }
  destruct (get_hardhat_paths_layers Sample.json_loads Sample.hardhat_console_reporting
              "proj" ["npx"; "hardhat"] args ov (Some Sample.reported_text) Hov eq_refl)
    as (_ & _ & Hreported & _).
  destruct (Hreported Sample.reported_text
              [("artifacts", JStr "build"); ("cache", JStr "tmp")] eq_refl)
    as (reported & m & Hmap & Hrep & Hpaths & Hm); [discriminate|reflexivity|].
  exists m. split; [exact Hpaths|].
  rewrite !Hm. unfold layered. rewrite !Hrep.
  repeat split; vm_compute; reflexivity.
Defined.

(** C9, as stated, fails: an artifact that is not JSON and an artifact that
    lacks the required keys end in exceptions of two different classes, so
    no single class of error covers the malformed artifacts. *)
Lemma malformed_errors_differ :
  let load := load_build_info Sample.extract_name Sample.convert_filename
                Sample.json_loads Sample.fs "proj" (Path ["proj"; "proj"]) in
  let not_json := joinpath Sample.build_dir "c.json" in
  let no_keys := joinpath Sample.build_dir "a.json" in
  malformed (Sample.json_loads (read_text Sample.fs not_json)) = true
  /\ malformed (Sample.json_loads (read_text Sample.fs no_keys)) = true
  /\ load not_json Sample.st0 = (Sample.st0, Raise JSONDecodeError)
  /\ load no_keys Sample.st0 = (Sample.st0, Raise (KeyError "output"))
  /\ ~ (exists c : exn_class,
          forall build_info,
            malformed (Sample.json_loads (read_text Sample.fs build_info)) = true ->
            exists st' e, load build_info Sample.st0 = (st', Raise e) /\ class_of e = c).
Proof.
  intros load not_json no_keys.
  assert (load not_json Sample.st0 = (Sample.st0, Raise JSONDecodeError)) as H1
    by reflexivity.
  assert (load no_keys Sample.st0 = (Sample.st0, Raise (KeyError "output"))) as H2
    by reflexivity.
  repeat split; try done.
  intros (c & Hc).
  destruct (Hc not_json eq_refl) as (s1 & e1 & He1 & Hc1).
  destruct (Hc no_keys eq_refl) as (s2 & e2 & He2 & Hc2).
  rewrite H1 in He1. rewrite H2 in He2.
  injection He1 as _ <-. injection He2 as _ <-.
  simpl in Hc1, Hc2. congruence.
Qed.

Lemma malformed_artifact_aborts_witness :
  let wd := Path ["proj"; "proj"] in
  detect_directories Sample.json_loads Sample.hardhat_console "proj" ∅
  = Ok (Sample.build_dir, wd)
  /\ locate (fs_after_compile Sample.hardhat_compile Sample.fs "proj" ∅) Sample.build_dir
     = Ok ["c.json"; "b.json"; "a.json"]
  /\ (forall st,
        load_build_info Sample.extract_name Sample.convert_filename Sample.json_loads
          Sample.fs "proj" wd (joinpath Sample.build_dir "a.json") st
        = (st, Raise (KeyError "output")))
  /\ exists cc' e,
       compile Sample.extract_name Sample.convert_filename Sample.json_loads
         Sample.hardhat_console Sample.hardhat_compile Sample.fs "proj" ∅ Sample.cc0
       = (cc', Raise e).
Proof.
  intros wd.
  assert (detect_directories Sample.json_loads Sample.hardhat_console "proj" ∅
          = Ok (Sample.build_dir, wd)) as Hdirs by (vm_compute; reflexivity).
  split; [exact Hdirs|]. split; [reflexivity|].
  destruct (malformed_artifact_aborts Sample.extract_name Sample.convert_filename
              Sample.json_loads Sample.hardhat_console Sample.hardhat_compile
              Sample.fs "proj" ∅ Sample.build_dir wd ["c.json"; "b.json"; "a.json"]
              "a.json" Sample.cc0 Hdirs eq_refl) as (Hload & _ & _ & Hrun).
  - right. right. left.
  - reflexivity.
  - split; [exact Hload|exact Hrun].
Defined.

Lemma is_supported_spec_witness :
  truthy (kwargs_get ∅ "hardhat_ignore" (KBool false)) = false
  /\ isfile Sample.fs (os_path_join "proj" "hardhat.config.ts") = true
  /\ is_supported Sample.fs "proj" ∅ = true
  /\ is_supported Sample.fs "proj" {["hardhat_ignore" := KBool true]} = false.
Proof.
  split; [reflexivity|]. split; [reflexivity|]. split.
  - apply (is_supported_spec Sample.fs "proj" ∅); [reflexivity|]. right. reflexivity.
  - apply (is_supported_spec Sample.fs "proj" {["hardhat_ignore" := KBool true]}).
    vm_compute. reflexivity.
Defined.

(** ** The further properties on the sample environment *)

Lemma is_dependency_by_component_witness :
  (∅ : gmap string bool) !! "a/node_modules/b.sol" = None
  /\ exists ret,
       is_dependency "a/node_modules/b.sol" ∅
       = (<["a/node_modules/b.sol" := ret]> ∅, Ok ret)
       /\ (ret = true <-> "node_modules" ∈ PyStr.split "/" "a/node_modules/b.sol").
Proof.
  split; [apply lookup_empty|].
  apply (is_dependency_by_component "a/node_modules/b.sol" ∅). apply lookup_empty.
Defined.

Lemma is_dependency_memoizes_witness :
  cache_coherent ∅
  /\ exists cache',
       is_dependency "lib/a.sol" ∅ = (cache', Ok false)
       /\ cache' !! "lib/a.sol" = Some false
       /\ is_dependency "lib/a.sol" cache' = (cache', Ok false).
Proof.
  assert (cache_coherent ∅) as Hcoh.
  { intros p ret Hp. by rewrite lookup_empty in Hp. }
  split; [exact Hcoh|].
  destruct (is_dependency_memoizes "lib/a.sol" ∅ Hcoh)
    as (cache' & Hrun & _ & _ & Hcached & Hagain).
  exists cache'. by repeat split.
Defined.

Lemma located_unit_ids_witness :
  locate Sample.fs Sample.build_dir = Ok ["c.json"; "b.json"; "a.json"]
  /\ uniq_id_of "c.json" +:+ ".json" = "c.json"
  /\ (uniq_id_of "a.json" = uniq_id_of "b.json" -> "a.json" = "b.json").
Proof.
  split; [reflexivity|].
  destruct (located_unit_ids Sample.fs Sample.build_dir ["c.json"; "b.json"; "a.json"]
              eq_refl) as [Hid Hinj].
  split.
  - apply Hid. left.
  - apply Hinj; [right; right; left|right; left].
Defined.

Lemma locate_keeps_ties_in_listing_order_witness :
  listdir Sample.fs_ties Sample.build_dir = Ok ["b.json"; "x.txt"; "a.json"]
  /\ exists files,
       locate Sample.fs_ties Sample.build_dir = Ok files
       /\ filter (fun f => getmtime Sample.fs_ties (joinpath Sample.build_dir f) = 7%Z) files
          = ["b.json"; "a.json"].
Proof.
  split; [reflexivity|].
  destruct (locate_keeps_ties_in_listing_order Sample.fs_ties Sample.build_dir
              ["b.json"; "x.txt"; "a.json"] eq_refl) as (files & Hloc & Hties).
  exists files. split; [exact Hloc|]. by rewrite (Hties 7%Z).
Defined.


Lemma compile_listdir_error_witness :
  let kwargs : gmap string kwval := {["hardhat_artifacts_directory" := KStr "out"]} in
  let build_directory := Path ["proj"; "proj"; "out"; "build-info"] in
  detect_directories Sample.json_loads Sample.hardhat_console "proj" kwargs
  = Ok (build_directory, Path ["proj"; "proj"])
  /\ listdir (fs_after_compile Sample.hardhat_compile Sample.fs "proj" kwargs)
       build_directory = Raise FileNotFoundError
  /\ compile Sample.extract_name Sample.convert_filename Sample.json_loads
       Sample.hardhat_console Sample.hardhat_compile Sample.fs "proj" kwargs Sample.cc0
     = (Sample.cc0, Raise FileNotFoundError).
Proof.
  intros kwargs build_directory.
  assert (detect_directories Sample.json_loads Sample.hardhat_console "proj" kwargs
          = Ok (build_directory, Path ["proj"; "proj"])) as Hdirs
    by (vm_compute; reflexivity).
  assert (listdir (fs_after_compile Sample.hardhat_compile Sample.fs "proj" kwargs)
            build_directory = Raise FileNotFoundError) as Hls
    by (vm_compute; reflexivity).
  split; [exact Hdirs|]. split; [exact Hls|].
  apply (compile_listdir_error Sample.extract_name Sample.convert_filename
           Sample.json_loads Sample.hardhat_console Sample.hardhat_compile
           Sample.fs "proj" kwargs build_directory (Path ["proj"; "proj"])
           FileNotFoundError Sample.cc0 Hdirs Hls).
Defined.

Lemma probe_stderr_voids_stdout_witness :
  Sample.hardhat_console_warning (["npx"; "hardhat"] ++ ["console"; "--no-compile"]) "proj"
    "console.log(JSON.stringify(config.paths))" = (Sample.reported_text, "warning")
  /\ override_paths "proj" ∅ = Ok ∅
  /\ Sample.json_loads "{}" = Some (JObj [])
  /\ get_hardhat_paths Sample.json_loads Sample.hardhat_console_warning
       "proj" ["npx"; "hardhat"] ∅ = Ok (∅ ∪ default_paths "proj").
Proof.
  assert (override_paths "proj" ∅ = Ok ∅) as Hov by (vm_compute; reflexivity).
  split; [reflexivity|]. split; [exact Hov|]. split; [reflexivity|].
  apply (probe_stderr_voids_stdout Sample.json_loads Sample.hardhat_console_warning
           "proj" ["npx"; "hardhat"] ∅ ∅ Sample.reported_text "warning" eq_refl);
    [discriminate|exact Hov|reflexivity].
Defined.

Lemma probe_non_object_raises_witness :
  override_paths "proj" ∅ = Ok ∅
  /\ run_hardhat_console Sample.hardhat_console_array "proj" ["npx"; "hardhat"]
       "console.log(JSON.stringify(config.paths))" = Some "[]"
  /\ Sample.json_loads "[]" = Some (JArr [])
  /\ get_hardhat_paths Sample.json_loads Sample.hardhat_console_array
       "proj" ["npx"; "hardhat"] ∅ = Raise TypeError.
Proof.
  assert (override_paths "proj" ∅ = Ok ∅) as Hov by (vm_compute; reflexivity).
  split; [exact Hov|]. split; [reflexivity|]. split; [reflexivity|].
  apply (probe_non_object_raises Sample.json_loads Sample.hardhat_console_array
           "proj" ["npx"; "hardhat"] ∅ ∅ "[]" (JArr []) Hov eq_refl);
    [discriminate|reflexivity|discriminate].
Defined.


Lemma arguments_reach_three_keys_witness :
  let args : gmap string kwval := {["hardhat_cache_directory" := KStr "c"]} in
  let m' := default_paths "proj" in
  let m := <["cache" := PVPath (Path ["proj"; "c"])]> m' in
  get_hardhat_paths Sample.json_loads Sample.hardhat_console "proj" ["npx"; "hardhat"] args
  = Ok m
  /\ get_hardhat_paths Sample.json_loads Sample.hardhat_console "proj" ["npx"; "hardhat"] ∅
     = Ok m'
  /\ m !! "sources" = m' !! "sources".
Proof.
  intros args m' m.
  assert (get_hardhat_paths Sample.json_loads Sample.hardhat_console
            "proj" ["npx"; "hardhat"] args = Ok m) as Hm by (vm_compute; reflexivity).
  assert (get_hardhat_paths Sample.json_loads Sample.hardhat_console
            "proj" ["npx"; "hardhat"] ∅ = Ok m') as Hm' by (vm_compute; reflexivity).
  split; [exact Hm|]. split; [exact Hm'|].
  by apply (arguments_reach_three_keys Sample.json_loads Sample.hardhat_console
              "proj" ["npx"; "hardhat"] args ∅ m m' "sources" Hm Hm').
Defined.

Lemma registries_share_their_keys_witness :
  let st' := fst (parse_build_info Sample.extract_name Sample.convert_filename
                    "proj" (Path ["proj"; "proj"]) Sample.two_files Sample.st0) in
  parse_build_info Sample.extract_name Sample.convert_filename
    "proj" (Path ["proj"; "proj"]) Sample.two_files Sample.st0 = (st', Ok tt)
  /\ chained (cu st') /\ aligned (cu st').
Proof.
  intros st'.
  assert (parse_build_info Sample.extract_name Sample.convert_filename
            "proj" (Path ["proj"; "proj"]) Sample.two_files Sample.st0 = (st', Ok tt))
    as Hrun by (vm_compute; reflexivity).
  split; [exact Hrun|].
  destruct (registries_share_their_keys Sample.extract_name Sample.convert_filename
              "proj" (Path ["proj"; "proj"]) Sample.two_files "unit" ∅ st' (Ok tt) Hrun)
    as [Hchain Haligned].
  split; [exact Hchain|by apply Haligned].
Defined.

Lemma add_contract_touches_its_name_witness :
  "Bar" <> Sample.extract_name "A.sol:Foo"
  /\ abis (cu (fst (add_contract Sample.extract_name Sample.convert_filename
                     (Path ["proj"; "proj"]) "A.sol" "A.sol:Foo" (Sample.info "60" "61")
                     Sample.st0))) !! "Bar"
     = abis (cu Sample.st0) !! "Bar".
Proof.
  assert ("Bar" <> Sample.extract_name "A.sol:Foo") as Hne by discriminate.
  split; [exact Hne|].
  apply (add_contract_touches_its_name Sample.extract_name Sample.convert_filename
           (Path ["proj"; "proj"]) "A.sol" "A.sol:Foo" "Bar" (Sample.info "60" "61")
           Sample.st0 Hne).
Defined.

Lemma legacy_keeps_last_ast_witness :
  let wd := Path ["proj"; "proj"] in
  let st' := fst (parse_build_info Sample.extract_name Sample.convert_filename
                    "proj" wd Sample.legacy_two_sources Sample.st0) in
  parse_build_info Sample.extract_name Sample.convert_filename
    "proj" wd Sample.legacy_two_sources Sample.st0 = (st', Ok tt)
  /\ exists a,
       a = JBool true
       /\ asts (cu st') = {["proj/proj/proj" := a]}
       /\ filenames (cu st')
          = {["proj/proj/proj" := Sample.convert_filename "proj" wd]}.
Proof.
  intros wd st'.
  assert (parse_build_info Sample.extract_name Sample.convert_filename
            "proj" wd Sample.legacy_two_sources Sample.st0 = (st', Ok tt))
    as Hrun by (vm_compute; reflexivity).
  split; [exact Hrun|].
  destruct (legacy_keeps_last_ast Sample.extract_name Sample.convert_filename
              "proj" wd Sample.legacy_two_sources
              (JObj [("sources", JObj [("a.sol", JObj [("ast", JNull)]);
                                       ("b.sol", JObj [("ast", JBool true)])])])
              (JObj [("a.sol", JObj [("ast", JNull)]);
                     ("b.sol", JObj [("ast", JBool true)])])
              {| compiler := "solc"; version := JStr "0.4.5"; optimized := JBool true |}
              [("a.sol", JObj [("ast", JNull)])] "b.sol" (JObj [("ast", JBool true)])
              "unit" ∅ st' eq_refl eq_refl eq_refl eq_refl Hrun)
    as (a & Ha & Hasts & Hfiles).
  exists a. split; [by injection Ha as <-|]. by split.
Defined.

Lemma unit_files_are_global_witness :
  let st' := fst (parse_build_info Sample.extract_name Sample.convert_filename
                    "proj" (Path ["proj"; "proj"]) Sample.sources_only Sample.st0) in
  is_Some (filenames (cu st') !! "proj/proj/A.sol")
  /\ is_Some (global_filenames st' !! "proj/proj/A.sol").
Proof.
  intros st'.
  assert (is_Some (filenames (cu st') !! "proj/proj/A.sol")) as Hunit
    by (eexists; vm_compute; reflexivity).
  split; [exact Hunit|].
  by apply (unit_files_are_global Sample.extract_name Sample.convert_filename
              "proj" (Path ["proj"; "proj"]) Sample.sources_only "unit" ∅).
Defined.

Lemma compile_keeps_filenames_witness :
  let f := Sample.convert_filename "old.sol" (Path ["proj"; "proj"]) in
  let cc := {| cc_filenames := {[absolute f := f]}; compilation_units := ∅ |} in
  cc_filenames cc !! absolute f = Some f
  /\ cc_filenames
       (fst (compile Sample.extract_name Sample.convert_filename Sample.json_loads
               Sample.hardhat_console Sample.hardhat_compile Sample.fs "proj" ∅ cc))
     !! absolute f = Some f.
Proof.
  intros f cc.
  assert (cc_filenames cc !! absolute f = Some f) as Hk by apply lookup_singleton_eq.
  split; [exact Hk|].
  apply (compile_keeps_filenames Sample.extract_name Sample.convert_filename
           Sample.json_loads Sample.hardhat_console Sample.hardhat_compile
           Sample.fs "proj" ∅ cc (absolute f) f Hk).
Defined.

Lemma stored_srcmaps_wellformed_witness :
  let st' := fst (parse_build_info Sample.extract_name Sample.convert_filename
                    "proj" (Path ["proj"; "proj"]) Sample.minimal Sample.st0) in
  srcmaps_init (cu st') !! "Foo" = Some ["1:2:0"; "3:4:0"]
  /\ Forall (fun e => PyStr.contains ";" e = false) ["1:2:0"; "3:4:0"].
Proof.
  intros st'.
  assert (srcmaps_init (cu st') !! "Foo" = Some ["1:2:0"; "3:4:0"]) as Hfoo
    by (vm_compute; reflexivity).
  split; [exact Hfoo|].
  apply (stored_srcmaps_wellformed Sample.extract_name Sample.convert_filename
           "proj" (Path ["proj"; "proj"]) Sample.minimal "unit" ∅ "Foo"). by left.
Defined.

Lemma compiler_version_from_header_witness :
  let cv := {| compiler := "vyper"; version := JStr "0.4.0"; optimized := JBool true |} in
  read_header Sample.vyper_040
  = Ok (JObj [("sources", JObj [("a.vy", JObj [("ast", JNull)])])], cv)
  /\ compiler_version
       (cu (fst (parse_build_info Sample.extract_name Sample.convert_filename
                   "proj" (Path ["proj"; "proj"]) Sample.vyper_040 Sample.st0)))
     = Some cv
  /\ read_header (JObj [("output", JObj []); ("solcVersion", JStr "0.8.1");
                         ("input", JObj [("language", JStr "Solidity")])])
     = Raise (KeyError "settings").
Proof.
  intros cv. split; [reflexivity|]. split; [|reflexivity].
  destruct (compiler_version_from_header Sample.extract_name Sample.convert_filename
              "proj" (Path ["proj"; "proj"]) Sample.vyper_040 Sample.st0) as [_ Hok].
  by destruct (Hok _ cv eq_refl) as [Hcv _].
Defined.

Lemma is_supported_trailing_slash_witness :
  "proj" <> ""
  /\ PyStr.endswith "proj" "/" = false
  /\ is_supported Sample.fs "proj/" ∅ = is_supported Sample.fs "proj" ∅.
Proof.
  split; [discriminate|]. split; [reflexivity|].
  apply (is_supported_trailing_slash Sample.fs "proj" ∅); [discriminate|reflexivity].
Defined.

Lemma compile_ignores_compile_step_witness :
  let kwargs : gmap string kwval := {["ignore_compile" := KBool true]} in
  truthy (kwargs_get kwargs "hardhat_ignore_compile" (KBool false))
  || truthy (kwargs_get kwargs "ignore_compile" (KBool false)) = true
  /\ compile Sample.extract_name Sample.convert_filename Sample.json_loads
       Sample.hardhat_console Sample.hardhat_compile Sample.fs "proj" kwargs Sample.cc0
     = compile Sample.extract_name Sample.convert_filename Sample.json_loads
         Sample.hardhat_console Sample.wiping_compile Sample.fs "proj" kwargs Sample.cc0.
Proof.
  intros kwargs.
  assert (truthy (kwargs_get kwargs "hardhat_ignore_compile" (KBool false))
          || truthy (kwargs_get kwargs "ignore_compile" (KBool false)) = true) as Hignore
    by (vm_compute; reflexivity).
  split; [exact Hignore|].
  apply (compile_ignores_compile_step Sample.extract_name Sample.convert_filename
           Sample.json_loads Sample.hardhat_console Sample.hardhat_compile
           Sample.wiping_compile Sample.fs "proj" kwargs Sample.cc0 Hignore).
Defined.

Lemma contract_names_are_entries_witness :
  let st' := fst (parse_build_info Sample.extract_name Sample.convert_filename
                    "proj" (Path ["proj"; "proj"]) Sample.two_files Sample.st0) in
  "Foo" ∈ contracts_names (cu st')
  /\ exists key f names,
       filename_to_contracts (cu st') !! key = Some (f, names) /\ "Foo" ∈ names.
Proof.
  intros st'.
  assert ("Foo" ∈ contracts_names (cu st')) as Hfoo by (vm_compute; reflexivity).
  split; [exact Hfoo|].
  by apply (contract_names_are_entries Sample.extract_name Sample.convert_filename
              "proj" (Path ["proj"; "proj"]) Sample.two_files "unit" ∅ "Foo").
Defined.
